(** * The opentelemetry handler of Caddy: tracer-provider cache and wrapper

    A shallow embedding of [modules/caddyhttp/opentelemetry]:
    - [tracerproviderscache.go]: the reference-counted registry of tracer
      providers ([getTracerProvider], [cleanupTracerProvider]);
    - [tracer.go]: [newOpenTelemetryWrapper], [getTracerExporter],
      [getPropagators], [cleanup];
    - the file of the handler module: [Provision] and [Cleanup] of
      [OpenTelemetry].

    Go strings are byte strings, modelled by [string] (a list of [ascii]
    bytes).  Go maps are [gmap]s; reading an absent key gives the zero
    value.  The collaborators the package calls (the OpenTelemetry SDK, the
    process environment, zap) are a record of functions, and the outcome of
    each SDK call made during a teardown is an argument of the operation. *)

From Stdlib Require Import ZArith Lia Ascii String.
From stdpp Require Import base option list strings gmap.

Local Open Scope string_scope.
Local Open Scope Z_scope.
Local Open Scope list_scope.

(** ** Errors *)

(** Go [error] values: the three sentinels of [tracer.go], errors that come
    out of a collaborator, and [fmt.Errorf] with one [%w] verb, which keeps
    the text before and after the wrapped error. *)
Inductive error : Type :=
| ErrUnspecifiedTracesProtocol
| ErrNonSupportedTracesProtocol
| ErrUnspecifiedPropagators
| ErrCollaborator (msg : string)
| Errorf (before : string) (wrapped : error) (after : string).

#[global] Instance error_eq_dec : EqDecision error.
Proof. solve_decision. Defined.

(** [err.Error()] *)
Fixpoint Error (e : error) : string :=
  match e with
  | ErrUnspecifiedTracesProtocol => "unspecified opentelemetry traces protocol"
  | ErrNonSupportedTracesProtocol => "non supported opentelemetry traces protocol"
  | ErrUnspecifiedPropagators => "unspecified opentelemtry propagators"
  | ErrCollaborator msg => msg
  | Errorf before wrapped after => before +:+ Error wrapped +:+ after
  end.

(** [errors.Is err target]: [target] is found along the unwrap chain. *)
Fixpoint errors_Is (err target : error) : bool :=
  bool_decide (err = target) ||
  match err with
  | Errorf _ wrapped _ => errors_Is wrapped target
  | _ => false
  end.

(** A Go result pair [(v, err)] of a fallible call. *)
Inductive result (A : Type) : Type :=
| Ok (v : A)
| Err (e : error).
Arguments Ok {A} v.
Arguments Err {A} e.

(** ** The SDK objects the cache stores *)

Inductive TransportCredentials : Type :=
| ClientTLSFromFile (certFile : string)
| NewTLS.

Inductive otlptracegrpc_Option : Type :=
| WithInsecure
| WithTLSCredentials (c : TransportCredentials)
| WithEndpoint (endpoint : string).

Record Exporter : Type := { exporter_opts : list otlptracegrpc_Option }.

Record Resource : Type := { attributes : list (string * string) }.

Inductive TracerProviderOption : Type :=
| WithBatcher (e : Exporter)
| WithResource (r : Resource).

(** A [*sdktrace.TracerProvider]: the address of the allocation is what Go
    compares; [sdktrace.NewTracerProvider] allocates a fresh one. *)
Record TracerProvider : Type := {
  tp_addr : nat;
  tp_opts : list TracerProviderOption;
}.

Record Tracer : Type := {
  tracer_provider : TracerProvider;
  tracer_name : string;
}.

#[global] Instance TransportCredentials_eq_dec : EqDecision TransportCredentials.
Proof. solve_decision. Defined.
#[global] Instance otlptracegrpc_Option_eq_dec : EqDecision otlptracegrpc_Option.
Proof. solve_decision. Defined.
#[global] Instance Exporter_eq_dec : EqDecision Exporter.
Proof. solve_decision. Defined.
#[global] Instance Resource_eq_dec : EqDecision Resource.
Proof. solve_decision. Defined.
#[global] Instance TracerProviderOption_eq_dec : EqDecision TracerProviderOption.
Proof. solve_decision. Defined.
#[global] Instance TracerProvider_eq_dec : EqDecision TracerProvider.
Proof. solve_decision. Defined.

(** Calls that leave the package, in program order. *)
Inductive call : Type :=
| CallNewTracerProvider (tp : TracerProvider)
| CallForceFlush (tp : TracerProvider)
| CallLoggerError (msg : string)
| CallShutdown (tp : TracerProvider).

#[global] Instance call_eq_dec : EqDecision call.
Proof. solve_decision. Defined.

(** ** tracerproviderscache.go *)

(** Go [int] on a 64-bit platform. *)
Definition int_wrap (z : Z) : Z := (z + 2 ^ 63) mod 2 ^ 64 - 2 ^ 63.

(** The two maps of [tracerProviderCache], with the allocator of the SDK and
    the calls made so far.  [mu] is held for the whole body of both methods,
    so every call is one atomic step of this state. *)
Record tracerProviderCache : Type := {
  tracerProviders : gmap string TracerProvider;
  tracerProvidersCounter : gmap string Z;
  allocated : nat;
  calls : list call;
}.

(** [make(map...)], [make(map...)] *)
Definition emptyCache : tracerProviderCache :=
  {| tracerProviders := ∅; tracerProvidersCounter := ∅;
     allocated := 0%nat; calls := [] |}.

(** [m[key]] on a [map[string]int] *)
Definition counterAt (m : gmap string Z) (key : string) : Z :=
  default 0 (m !! key).

(** [getTracerProvider]: create or return the TracerProvider of [key]. *)
Definition getTracerProvider (key : string) (opts : list TracerProviderOption)
    (t : tracerProviderCache) : TracerProvider * tracerProviderCache :=
  let counter :=
    <[key := int_wrap (counterAt (tracerProvidersCounter t) key + 1)]>
      (tracerProvidersCounter t) in
  match tracerProviders t !! key with
  | Some val =>
      (val, {| tracerProviders := tracerProviders t;
               tracerProvidersCounter := counter;
               allocated := allocated t;
               calls := calls t |})
  | None =>
      let tp := {| tp_addr := allocated t; tp_opts := opts |} in
      (tp, {| tracerProviders := <[key := tp]> (tracerProviders t);
              tracerProvidersCounter := counter;
              allocated := S (allocated t);
              calls := calls t ++ [CallNewTracerProvider tp] |})
  end.

(** What [ForceFlush] and [Shutdown] return if the teardown reaches them
    ([None] is a nil error). *)
Record teardown : Type := {
  forceFlushErr : option error;
  shutdownErr : option error;
}.

(** [cleanupTracerProvider]: the returned error and the cache afterwards.
    [logger] is the logger of the handler, which [Provision] sets; what is
    sent to it is recorded in [calls]. *)
Definition cleanupTracerProvider (key : string) (sdk : teardown)
    (t : tracerProviderCache) : option error * tracerProviderCache :=
  let counter :=
    if 0 <? counterAt (tracerProvidersCounter t) key
    then <[key := int_wrap (counterAt (tracerProvidersCounter t) key - 1)]>
           (tracerProvidersCounter t)
    else tracerProvidersCounter t in
  if counterAt counter key =? 0 then
    match tracerProviders t !! key with
    | Some tracerProvider =>
        let logged :=
          match forceFlushErr sdk with
          | Some err => [CallLoggerError ("forceFlush error: " +:+ Error err)]
          | None => []
          end in
        let calls' :=
          calls t ++ [CallForceFlush tracerProvider] ++ logged
                  ++ [CallShutdown tracerProvider] in
        match shutdownErr sdk with
        | Some err =>
            (Some (Errorf "tracerProviderCache shutdown error: " err ""),
             {| tracerProviders := tracerProviders t;
                tracerProvidersCounter := counter;
                allocated := allocated t;
                calls := calls' |})
        | None =>
            (None,
             {| tracerProviders := delete key (tracerProviders t);
                tracerProvidersCounter := delete key counter;
                allocated := allocated t;
                calls := calls' |})
        end
    | None =>
        (None,
         {| tracerProviders := delete key (tracerProviders t);
            tracerProvidersCounter := delete key counter;
            allocated := allocated t;
            calls := calls t |})
    end
  else
    (None,
     {| tracerProviders := tracerProviders t;
        tracerProvidersCounter := counter;
        allocated := allocated t;
        calls := calls t |}).

(** ** The Go library functions [getPropagators] calls *)

Module strings.

(** [strings.Split(s, sep)] for a one-byte separator: the pieces between
    the separators, in order; [Split("", ",")] is one empty piece. *)
Fixpoint Split (s : string) (sep : ascii) : list string :=
  match s with
  | EmptyString => [EmptyString]
  | String c rest =>
      if Ascii.eqb c sep then EmptyString :: Split rest sep
      else match Split rest sep with
           | piece :: pieces => String c piece :: pieces
           | [] => [String c EmptyString]
           end
  end.

Definition byte (c : ascii) : N := N_of_ascii c.

(** [unicode.IsSpace] below U+0080: tab, line feed, vertical tab, form
    feed, carriage return, space. *)
Definition isAsciiSpace (c : ascii) : bool :=
  ((9 <=? byte c) && (byte c <=? 13) || (byte c =? 32))%N.

(** UTF-8 of U+0085 and U+00A0. *)
Definition isSpace2 (c1 c2 : ascii) : bool :=
  ((byte c1 =? 194) && ((byte c2 =? 133) || (byte c2 =? 160)))%N.

(** UTF-8 of U+1680, U+2000..U+200A, U+2028, U+2029, U+202F, U+205F and
    U+3000. *)
Definition isSpace3 (c1 c2 c3 : ascii) : bool :=
  ((byte c1 =? 225) && (byte c2 =? 154) && (byte c3 =? 128)
   || (byte c1 =? 226) && (byte c2 =? 128)
      && ((128 <=? byte c3) && (byte c3 <=? 138)
          || (byte c3 =? 168) || (byte c3 =? 169) || (byte c3 =? 175))
   || (byte c1 =? 226) && (byte c2 =? 129) && (byte c3 =? 159)
   || (byte c1 =? 227) && (byte c2 =? 128) && (byte c3 =? 128))%N.

(** [strings.TrimLeftFunc(s, unicode.IsSpace)] *)
Fixpoint trimLeft (s : string) : string :=
  match s with
  | EmptyString => s
  | String c1 r1 =>
      if isAsciiSpace c1 then trimLeft r1
      else match r1 with
           | EmptyString => s
           | String c2 r2 =>
               if isSpace2 c1 c2 then trimLeft r2
               else match r2 with
                    | EmptyString => s
                    | String c3 r3 =>
                        if isSpace3 c1 c2 c3 then trimLeft r3 else s
                    end
           end
  end.

(** [strings.TrimRightFunc(s, unicode.IsSpace)] on the reversed bytes of
    [s]: the last rune is decoded from the end. *)
Fixpoint trimRightRev (s : string) : string :=
  match s with
  | EmptyString => s
  | String c1 r1 =>
      if isAsciiSpace c1 then trimRightRev r1
      else match r1 with
           | EmptyString => s
           | String c2 r2 =>
               if isSpace2 c2 c1 then trimRightRev r2
               else match r2 with
                    | EmptyString => s
                    | String c3 r3 =>
                        if isSpace3 c3 c2 c1 then trimRightRev r3 else s
                    end
           end
  end.

Definition trimRight (s : string) : string :=
  String.rev (trimRightRev (String.rev s)).

(** [strings.TrimSpace(s)]: [s] without its leading and trailing white
    space, as defined by Unicode. *)
Definition TrimSpace (s : string) : string := trimRight (trimLeft s).

(** [strings.ToLower] on ASCII letters. *)
Definition toLowerByte (c : ascii) : ascii :=
  if ((65 <=? byte c) && (byte c <=? 90))%N
  then ascii_of_N (byte c + 32) else c.

Fixpoint ToLower (s : string) : string :=
  match s with
  | EmptyString => EmptyString
  | String c rest => String (toLowerByte c) (ToLower rest)
  end.

End strings.

(** ** tracer.go *)

Definition envOtelPropagators := "OTEL_PROPAGATORS".
Definition envOtelExporterOtlpProtocol := "OTEL_EXPORTER_OTLP_PROTOCOL".
Definition envOtelExporterOtlpTracesProtocol := "OTEL_EXPORTER_OTLP_TRACES_PROTOCOL".
Definition envOtelExporterOtlpCertificate := "OTEL_EXPORTER_OTLP_CERTIFICATE".
Definition envOtelExporterOtlpTracesCertificate := "OTEL_EXPORTER_OTLP_TRACES_CERTIFICATE".
Definition webEngineName := "Caddy".
Definition defaultServiceName := "caddyService".
Definition defaultSpanName := "handler".

(** The [propagation.TextMapPropagator]s the module knows. *)
Inductive TextMapPropagator : Type :=
| Baggage
| TraceContext.

#[global] Instance TextMapPropagator_eq_dec : EqDecision TextMapPropagator.
Proof. solve_decision. Defined.

(** [propagation.NewCompositeTextMapPropagator(p...)]: the SDK's composite
    is the slice of its members, applied in order. *)
Record compositeTextMapPropagator : Type :=
  NewCompositeTextMapPropagator { members : list TextMapPropagator }.

Record tracerExporterConfig : Type := {
  exporterTracesProtocol : string;
  exporterCertificate : string;
  exporterTracesEndpoint : string;
  insecure : bool;
}.

Record openTelemetryWrapper : Type := {
  tracer : option Tracer;
  propagators : option compositeTextMapPropagator;
  tracerProviderKey : string;
  spanName : string;
}.

(** What the package reaches outside itself during setup: the process
    environment ([os.Getenv] gives the empty string for an unset variable),
    the Caddy version and the fallible constructors of the SDK. *)
Record collaborators : Type := {
  Getenv : string -> string;
  CaddyVersion : string;
  resource_New : list (string * string) -> result Resource;
  resource_Default : Resource;
  resource_Merge : Resource -> Resource -> result Resource;
  NewClientTLSFromFile : string -> result TransportCredentials;
  otlptracegrpc_New : list otlptracegrpc_Option -> result Exporter;
}.

(** [newResource]: the resource that describes the handler instance, merged
    with the default attributes. *)
Definition newResource (env : collaborators)
    (serviceName webEngineName webEngineDescription : string) : result Resource :=
  let option :=
    [("service.name", serviceName);
     ("webengine.name", webEngineName);
     ("webengine.description", webEngineDescription)] in
  match resource_New env option with
  | Err err => Err err
  | Ok caddyResource => resource_Merge env (resource_Default env) caddyResource
  end.

(** [getTracesProtocolFromEnv] *)
Definition getTracesProtocolFromEnv (env : collaborators) : string :=
  let protocol := Getenv env envOtelExporterOtlpTracesProtocol in
  if decide (protocol = "") then Getenv env envOtelExporterOtlpProtocol
  else protocol.

(** [isCertificateHeaderSet] *)
Definition isCertificateHeaderSet (env : collaborators) : bool :=
  bool_decide (Getenv env envOtelExporterOtlpCertificate ≠ "")
  || bool_decide (Getenv env envOtelExporterOtlpTracesCertificate ≠ "").

(** [getTracerExporter]: the exporter of the protocol, an error for a
    protocol other than grpc. *)
Definition getTracerExporter (env : collaborators) (cfg : tracerExporterConfig)
    : result Exporter :=
  if decide (exporterTracesProtocol cfg = "grpc") then
    let security : result (list otlptracegrpc_Option) :=
      if insecure cfg then Ok [WithInsecure]
      else if decide (exporterCertificate cfg ≠ "") then
        match NewClientTLSFromFile env (exporterCertificate cfg) with
        | Err err => Err (Errorf "credentials creation error: " err "")
        | Ok transportCredentials => Ok [WithTLSCredentials transportCredentials]
        end
      else if negb (isCertificateHeaderSet env) then Ok [WithTLSCredentials NewTLS]
      else Ok [] in
    match security with
    | Err err => Err err
    | Ok opts =>
        let opts :=
          if decide (exporterTracesEndpoint cfg ≠ "")
          then opts ++ [WithEndpoint (exporterTracesEndpoint cfg)]
          else opts in
        otlptracegrpc_New env opts
    end
  else
    Err (Errorf "" ErrNonSupportedTracesProtocol
           (": tracesProtocol " +:+ exporterTracesProtocol cfg)).

(** One iteration of the loop of [getPropagators] on the piece [v]. *)
Definition getPropagators_body
    (acc : gset string * list TextMapPropagator) (v : string)
    : gset string * list TextMapPropagator :=
  let '(deduplicationMap, propagatorsList) := acc in
  let propagatorName := strings.TrimSpace v in
  if decide (propagatorName ∈ deduplicationMap) then acc
  else
    ({[propagatorName]} ∪ deduplicationMap,
     if decide (propagatorName = "baggage") then propagatorsList ++ [Baggage]
     else if decide (propagatorName = "tracecontext")
          then propagatorsList ++ [TraceContext]
          else propagatorsList).

(** [getPropagators]: the composite of the propagators named in a
    comma-separated string, without duplicates. *)
Definition getPropagators (propagators : string) : compositeTextMapPropagator :=
  let '(_, propagatorsList) :=
    fold_left getPropagators_body (strings.Split propagators ",") (∅, []) in
  NewCompositeTextMapPropagator propagatorsList.

(** [fmt.Sprintf("%v", b)] for a bool *)
Definition formatBool (b : bool) : string := if b then "true" else "false".

(** [fmt.Sprintf("%s-%s-%s-%v-%s-%s", ...)], the key of the tracer provider
    in the cache. *)
Definition tracerProviderKeyOf (serviceName tracerName : string)
    (cfg : tracerExporterConfig) : string :=
  serviceName +:+ "-" +:+ tracerName +:+ "-" +:+ exporterTracesProtocol cfg
    +:+ "-" +:+ formatBool (insecure cfg) +:+ "-" +:+ exporterCertificate cfg
    +:+ "-" +:+ exporterTracesEndpoint cfg.

(** [newOpenTelemetryWrapper] on the package's [defaultTracerProviderCache]
    [t]: the wrapper and error it returns, and the cache afterwards. *)
Definition newOpenTelemetryWrapper (env : collaborators)
    (serviceName propagators tracerName spanName : string)
    (cfg : tracerExporterConfig) (t : tracerProviderCache)
    : openTelemetryWrapper * option error * tracerProviderCache :=
  let serviceName :=
    if decide (serviceName = "") then defaultServiceName else serviceName in
  let spanName :=
    if decide (spanName = "") then defaultSpanName else spanName in
  let ot := {| tracer := None; propagators := None;
               tracerProviderKey := ""; spanName := spanName |} in
  match newResource env serviceName webEngineName (CaddyVersion env) with
  | Err err => (ot, Some (Errorf "creating resource error: " err ""), t)
  | Ok res =>
      let protocol :=
        if decide (exporterTracesProtocol cfg = "")
        then getTracesProtocolFromEnv env
        else exporterTracesProtocol cfg in
      let cfg := {| exporterTracesProtocol := protocol;
                    exporterCertificate := exporterCertificate cfg;
                    exporterTracesEndpoint := exporterTracesEndpoint cfg;
                    insecure := insecure cfg |} in
      if decide (exporterTracesProtocol cfg = "") then
        (ot, Some ErrUnspecifiedTracesProtocol, t)
      else
        match getTracerExporter env cfg with
        | Err err => (ot, Some (Errorf "creating trace exporter error: " err ""), t)
        | Ok traceExporter =>
            let propagators :=
              if decide (propagators = "") then Getenv env envOtelPropagators
              else propagators in
            if decide (propagators = "") then
              (ot, Some ErrUnspecifiedPropagators, t)
            else
              let composite := getPropagators propagators in
              let key := tracerProviderKeyOf serviceName tracerName cfg in
              let '(tp, t') :=
                getTracerProvider key
                  [WithBatcher traceExporter; WithResource res] t in
              ({| tracer := Some {| tracer_provider := tp;
                                    tracer_name := tracerName |};
                  propagators := Some composite;
                  tracerProviderKey := key;
                  spanName := spanName |},
               None, t')
        end
  end.

(** [cleanup]: flush what remains and shut the tracer provider down. *)
Definition cleanup (ot : openTelemetryWrapper) (sdk : teardown)
    (t : tracerProviderCache) : option error * tracerProviderCache :=
  cleanupTracerProvider (tracerProviderKey ot) sdk t.

(** ** The handler module *)

Record OpenTelemetry : Type := {
  TracerName : string;
  SpanName : string;
  ServiceName : string;
  Propagators : string;
  ExporterTracesEndpoint : string;
  ExporterTracesProtocol : string;
  ExporterInsecure : string;
  ExporterCertificate : string;
  otel : openTelemetryWrapper;
}.

(** [Provision]: the handler with its wrapper set, the error and the cache
    afterwards; an error is logged before it is returned. *)
Definition Provision (env : collaborators) (ot : OpenTelemetry)
    (t : tracerProviderCache)
    : OpenTelemetry * option error * tracerProviderCache :=
  let insecure :=
    bool_decide (ExporterInsecure ot = strings.ToLower "true") in
  let '(w, err, t') :=
    newOpenTelemetryWrapper env (ServiceName ot) (Propagators ot)
      (TracerName ot) (SpanName ot)
      {| exporterTracesProtocol := ExporterTracesProtocol ot;
         exporterCertificate := ExporterCertificate ot;
         exporterTracesEndpoint := ExporterTracesEndpoint ot;
         insecure := insecure |} t in
  let ot' := {| TracerName := TracerName ot; SpanName := SpanName ot;
                ServiceName := ServiceName ot; Propagators := Propagators ot;
                ExporterTracesEndpoint := ExporterTracesEndpoint ot;
                ExporterTracesProtocol := ExporterTracesProtocol ot;
                ExporterInsecure := ExporterInsecure ot;
                ExporterCertificate := ExporterCertificate ot;
                otel := w |} in
  match err with
  | Some _ =>
      (ot', err,
       {| tracerProviders := tracerProviders t';
          tracerProvidersCounter := tracerProvidersCounter t';
          allocated := allocated t';
          calls := calls t' ++ [CallLoggerError "OpenTelemetry Provision error"] |})
  | None => (ot', err, t')
  end.

(** [Cleanup]: the error of [cleanup], wrapped. *)
Definition Cleanup (ot : OpenTelemetry) (sdk : teardown)
    (t : tracerProviderCache) : option error * tracerProviderCache :=
  match cleanup (otel ot) sdk t with
  | (Some err, t') => (Some (Errorf "tracerProvider shutdown: " err ""), t')
  | (None, t') => (None, t')
  end.

(** ** The specification's vocabulary *)

Module Spec.

(** "deduplicated keeping only the first occurrence of each name" *)
Fixpoint keepFirst (names : list string) : list string :=
  match names with
  | [] => []
  | name :: rest => name :: filter (λ other, other ≠ name) (keepFirst rest)
  end.

(** "maps each recognized name to its codec, ignores unrecognized names" *)
Definition codec (name : string) : option TextMapPropagator :=
  if decide (name = "baggage") then Some Baggage
  else if decide (name = "tracecontext") then Some TraceContext
  else None.

(** "splits on a delimiter, trims whitespace per token, deduplicates
    preserving first-seen order, maps each recognized name to its codec,
    ignores unrecognized names, and composes the resulting codec list" *)
Definition build (names : string) : compositeTextMapPropagator :=
  NewCompositeTextMapPropagator
    (omap codec (keepFirst (strings.TrimSpace <$> strings.Split names ","))).

(** "An entry exists in the registry iff its refcount is >= 1" *)
Definition registryInvariant (t : tracerProviderCache) : Prop :=
  ∀ key : string,
    is_Some (tracerProviders t !! key)
    ↔ 1 ≤ counterAt (tracerProvidersCounter t) key.

(** "absent from the registry" *)
Definition absent (key : string) (t : tracerProviderCache) : Prop :=
  tracerProviders t !! key = None ∧ tracerProvidersCounter t !! key = None.

End Spec.

(** ** The values [newOpenTelemetryWrapper] resolves *)

(** The service name after defaulting. *)
Definition resolvedServiceName (serviceName : string) : string :=
  if decide (serviceName = "") then defaultServiceName else serviceName.

(** The span name after defaulting. *)
Definition resolvedSpanName (spanName : string) : string :=
  if decide (spanName = "") then defaultSpanName else spanName.

(** The exporter configuration after the protocol fell back to the
    environment. *)
Definition resolvedConfig (env : collaborators) (cfg : tracerExporterConfig)
    : tracerExporterConfig :=
  {| exporterTracesProtocol :=
       if decide (exporterTracesProtocol cfg = "")
       then getTracesProtocolFromEnv env
       else exporterTracesProtocol cfg;
     exporterCertificate := exporterCertificate cfg;
     exporterTracesEndpoint := exporterTracesEndpoint cfg;
     insecure := insecure cfg |}.

(** The propagators string after it fell back to [OTEL_PROPAGATORS]. *)
Definition resolvedPropagators (env : collaborators) (propagators : string)
    : string :=
  if decide (propagators = "") then Getenv env envOtelPropagators
  else propagators.

(** A process without the OTEL variables, and an SDK whose constructors
    succeed. *)
Definition plainProcess : collaborators :=
  {| Getenv := λ _, "";
     CaddyVersion := "v2.5.0";
     resource_New := λ attrs, Ok {| attributes := attrs |};
     resource_Default :=
       {| attributes := [("telemetry.sdk.language", "go");
                         ("telemetry.sdk.name", "opentelemetry")] |};
     resource_Merge := λ a b, Ok {| attributes := attributes a ++ attributes b |};
     NewClientTLSFromFile := λ certFile, Ok (ClientTLSFromFile certFile);
     otlptracegrpc_New := λ opts, Ok {| exporter_opts := opts |} |}.

(** [os.Setenv(name, value)] *)
Definition Setenv (name value : string) (env : collaborators) : collaborators :=
  {| Getenv := λ n, if decide (n = name) then value else Getenv env n;
     CaddyVersion := CaddyVersion env;
     resource_New := resource_New env;
     resource_Default := resource_Default env;
     resource_Merge := resource_Merge env;
     NewClientTLSFromFile := NewClientTLSFromFile env;
     otlptracegrpc_New := otlptracegrpc_New env |}.

(** The configuration of the package's tests: protocol as given, insecure. *)
Definition testConfig (tracesProtocol : string) : tracerExporterConfig :=
  {| exporterTracesProtocol := tracesProtocol; exporterCertificate := "";
     exporterTracesEndpoint := ""; insecure := true |}.

Definition grpcInsecure : tracerExporterConfig :=
  {| exporterTracesProtocol := "grpc"; exporterCertificate := "";
     exporterTracesEndpoint := ""; insecure := true |}.

Definition http11Insecure : tracerExporterConfig :=
  {| exporterTracesProtocol := "http/1.1"; exporterCertificate := "";
     exporterTracesEndpoint := ""; insecure := true |}.

(** No byte of [s] is a hyphen. *)
Fixpoint hyphenFree (s : string) : bool :=
  match s with
  | EmptyString => true
  | String c rest => negb (Ascii.eqb c "-") && hyphenFree rest
  end.

(** ** Runs of the cache *)

(** Sequences of calls on one cache. *)
Inductive op : Type :=
| Acquire (key : string) (opts : list TracerProviderOption)
| Release (key : string) (sdk : teardown).

Definition step (t : tracerProviderCache) (o : op) : tracerProviderCache :=
  match o with
  | Acquire key opts => snd (getTracerProvider key opts t)
  | Release key sdk => snd (cleanupTracerProvider key sdk t)
  end.

Definition run (ops : list op) (t : tracerProviderCache) : tracerProviderCache :=
  fold_left step ops t.

(** The providers the acquires of a run return, with their keys. *)
Fixpoint acquired (ops : list op) (t : tracerProviderCache)
    : list (string * TracerProvider) :=
  match ops with
  | [] => []
  | Acquire key opts :: rest =>
      (key, fst (getTracerProvider key opts t)) :: acquired rest (step t (Acquire key opts))
  | Release key sdk :: rest => acquired rest (step t (Release key sdk))
  end.

(** [key] has an entry in [t] and after every call of [ops]. *)
Fixpoint liveThroughout (key : string) (ops : list op) (t : tracerProviderCache)
    : Prop :=
  is_Some (tracerProviders t !! key)
  ∧ match ops with
    | [] => True
    | o :: rest => liveThroughout key rest (step t o)
    end.

(** No [Shutdown] of the run fails. *)
Definition shutdownSucceeds (o : op) : Prop :=
  match o with
  | Acquire _ _ => True
  | Release _ sdk => shutdownErr sdk = None
  end.

(** Outcomes of a teardown. *)
Definition allFine : teardown :=
  {| forceFlushErr := None; shutdownErr := None |}.
Definition flushFails : teardown :=
  {| forceFlushErr := Some (ErrCollaborator "exporter unreachable");
     shutdownErr := None |}.
Definition shutdownFails : teardown :=
  {| forceFlushErr := None;
     shutdownErr := Some (ErrCollaborator "context deadline exceeded") |}.
Definition bothFail : teardown :=
  {| forceFlushErr := Some (ErrCollaborator "exporter unreachable");
     shutdownErr := Some (ErrCollaborator "context deadline exceeded") |}.

(** Per key: both maps have the key, with a counter in [1, n], or neither. *)
Definition balanced (n : Z) (t : tracerProviderCache) : Prop :=
  ∀ key : string,
    match tracerProviders t !! key, tracerProvidersCounter t !! key with
    | Some _, Some c => 1 ≤ c ≤ n
    | None, None => True
    | _, _ => False
    end.

(** The acquires seen so far own their addresses: an address is below the
    allocator, belongs to one key, and every cached provider was acquired. *)
Definition owned (h : list (string * TracerProvider)) (t : tracerProviderCache)
    : Prop :=
  (∀ key tp, (key, tp) ∈ h → (tp_addr tp < allocated t)%nat)
  ∧ (∀ k1 p1 k2 p2, (k1, p1) ∈ h → (k2, p2) ∈ h →
       tp_addr p1 = tp_addr p2 → k1 = k2)
  ∧ (∀ key tp, tracerProviders t !! key = Some tp → (key, tp) ∈ h).

(** ** The rest of the handler module *)

(** [Validate]: an error when the wrapper has no tracer.  The value of
    [errors.New] carries its message. *)
Definition Validate (ot : OpenTelemetry) : option error :=
  match tracer (otel ot) with
  | None => Some (ErrCollaborator "openTelemetry tracer is nil")
  | Some _ => None
  end.

(** A handler as [caddy] makes it before [Provision]: the configuration
    fields set, the wrapper at its zero value. *)
Definition newHandler (tracerName spanName serviceName propagators
    endpoint protocol exporterInsecure certificate : string) : OpenTelemetry :=
  {| TracerName := tracerName; SpanName := spanName;
     ServiceName := serviceName; Propagators := propagators;
     ExporterTracesEndpoint := endpoint; ExporterTracesProtocol := protocol;
     ExporterInsecure := exporterInsecure; ExporterCertificate := certificate;
     otel := {| tracer := None; propagators := None;
                tracerProviderKey := ""; spanName := "" |} |}.

(** The exporter configuration [Provision] passes on: [insecure] is set for
    the value [true] of [exporter_insecure] and for no other. *)
Definition handlerConfig (ot : OpenTelemetry) : tracerExporterConfig :=
  {| exporterTracesProtocol := ExporterTracesProtocol ot;
     exporterCertificate := ExporterCertificate ot;
     exporterTracesEndpoint := ExporterTracesEndpoint ot;
     insecure := bool_decide (ExporterInsecure ot = "true") |}.

(** The handler with its wrapper replaced, as [Provision] leaves it. *)
Definition withOtel (w : openTelemetryWrapper) (ot : OpenTelemetry)
    : OpenTelemetry :=
  {| TracerName := TracerName ot; SpanName := SpanName ot;
     ServiceName := ServiceName ot; Propagators := Propagators ot;
     ExporterTracesEndpoint := ExporterTracesEndpoint ot;
     ExporterTracesProtocol := ExporterTracesProtocol ot;
     ExporterInsecure := ExporterInsecure ot;
     ExporterCertificate := ExporterCertificate ot;
     otel := w |}.

(** ** Vocabulary of the further properties *)

(** The key a call works on. *)
Definition opKey (o : op) : string :=
  match o with
  | Acquire key _ => key
  | Release key _ => key
  end.

(** Per key: both maps have the key, with a counter in [0, n], or neither. *)
Definition recorded (n : Z) (t : tracerProviderCache) : Prop :=
  ∀ key : string,
    match tracerProviders t !! key, tracerProvidersCounter t !! key with
    | Some _, Some c => 0 ≤ c ≤ n
    | None, None => True
    | _, _ => False
    end.

(** The addresses of the providers [Shutdown] was called on, in order. *)
Definition shutdownAddrs (cs : list call) : list nat :=
  omap (λ c, match c with
             | CallShutdown tp => Some (tp_addr tp)
             | _ => None
             end) cs.

(** What the teardown of [tp] sends out of the package. *)
Definition teardownCalls (tp : TracerProvider) (sdk : teardown) : list call :=
  [CallForceFlush tp]
  ++ match forceFlushErr sdk with
     | Some err => [CallLoggerError ("forceFlush error: " +:+ Error err)]
     | None => []
     end
  ++ [CallShutdown tp].

(** Every cached provider was created and not shut down; no address was
    shut down twice; what was shut down was created and lies below the
    allocator. *)
Definition tidy (t : tracerProviderCache) : Prop :=
  (∀ key tp, tracerProviders t !! key = Some tp →
     CallNewTracerProvider tp ∈ calls t
     ∧ tp_addr tp ∉ shutdownAddrs (calls t))
  ∧ (∀ a, a ∈ shutdownAddrs (calls t) → (a < allocated t)%nat)
  ∧ NoDup (shutdownAddrs (calls t))
  ∧ (∀ tp, CallShutdown tp ∈ calls t → CallNewTracerProvider tp ∈ calls t).

(** The configuration with another certificate path. *)
Definition withCertificate (certificate : string) (cfg : tracerExporterConfig)
    : tracerExporterConfig :=
  {| exporterTracesProtocol := exporterTracesProtocol cfg;
     exporterCertificate := certificate;
     exporterTracesEndpoint := exporterTracesEndpoint cfg;
     insecure := insecure cfg |}.

(** The configuration with another protocol. *)
Definition withProtocol (protocol : string) (cfg : tracerExporterConfig)
    : tracerExporterConfig :=
  {| exporterTracesProtocol := protocol;
     exporterCertificate := exporterCertificate cfg;
     exporterTracesEndpoint := exporterTracesEndpoint cfg;
     insecure := insecure cfg |}.

(** The handler with another [exporter_insecure] value. *)
Definition withExporterInsecure (value : string) (ot : OpenTelemetry)
    : OpenTelemetry :=
  {| TracerName := TracerName ot; SpanName := SpanName ot;
     ServiceName := ServiceName ot; Propagators := Propagators ot;
     ExporterTracesEndpoint := ExporterTracesEndpoint ot;
     ExporterTracesProtocol := ExporterTracesProtocol ot;
     ExporterInsecure := value;
     ExporterCertificate := ExporterCertificate ot;
     otel := otel ot |}.

Definition grpcSecure : tracerExporterConfig :=
  {| exporterTracesProtocol := "grpc"; exporterCertificate := "";
     exporterTracesEndpoint := ""; insecure := false |}.

(** An SDK in which the resource of the handler cannot be created. *)
Definition noResource : collaborators :=
  {| Getenv := Getenv plainProcess;
     CaddyVersion := CaddyVersion plainProcess;
     resource_New := λ _, Err (ErrCollaborator "resource detection failed");
     resource_Default := resource_Default plainProcess;
     resource_Merge := resource_Merge plainProcess;
     NewClientTLSFromFile := NewClientTLSFromFile plainProcess;
     otlptracegrpc_New := otlptracegrpc_New plainProcess |}.

(** An SDK in which no certificate file can be read. *)
Definition noCertificateFiles : collaborators :=
  {| Getenv := Getenv plainProcess;
     CaddyVersion := CaddyVersion plainProcess;
     resource_New := resource_New plainProcess;
     resource_Default := resource_Default plainProcess;
     resource_Merge := resource_Merge plainProcess;
     NewClientTLSFromFile :=
       λ _, Err (ErrCollaborator "open: no such file or directory");
     otlptracegrpc_New := otlptracegrpc_New plainProcess |}.

(** * Theorems *)

(** ** Counters *)

Lemma int_wrap_small (z : Z) : - 2 ^ 63 ≤ z < 2 ^ 63 → int_wrap z = z.
Proof.
  intros Hz. unfold int_wrap.
  rewrite Z.mod_small by lia. lia.
Qed.

Lemma counterAt_insert (m : gmap string Z) (k k' : string) (c : Z) :
  counterAt (<[k := c]> m) k' = if decide (k = k') then c else counterAt m k'.
Proof. unfold counterAt. rewrite lookup_insert. by case_decide. Qed.

Lemma counterAt_Some (m : gmap string Z) (k : string) (c : Z) :
  m !! k = Some c → counterAt m k = c.
Proof. unfold counterAt. by intros ->. Qed.

Lemma counterAt_None (m : gmap string Z) (k : string) :
  m !! k = None → counterAt m k = 0.
Proof. unfold counterAt. by intros ->. Qed.

(** ** The registry invariant, when no shutdown fails *)

Lemma balanced_registryInvariant (n : Z) (t : tracerProviderCache) :
  balanced n t → Spec.registryInvariant t.
Proof.
  intros Hb key. specialize (Hb key). unfold counterAt.
  destruct (tracerProviders t !! key), (tracerProvidersCounter t !! key);
    simpl; split; intros H; try done; try lia; try (by eexists).
Qed.

Lemma balanced_getTracerProvider (n : Z) key opts (t : tracerProviderCache) :
  0 ≤ n < 2 ^ 63 - 1 → balanced n t →
  balanced (n + 1) (snd (getTracerProvider key opts t)).
Proof.
  intros Hn Hb k. pose proof (Hb k) as Hk. pose proof (Hb key) as Hkey.
  unfold getTracerProvider.
  destruct (tracerProviders t !! key) as [val|] eqn:Hp; simpl;
    destruct (decide (key = k)) as [->|Hne];
    rewrite ?lookup_insert_eq, ?lookup_insert_ne by done.
  - rewrite Hp in *.
    destruct (tracerProvidersCounter t !! k) as [c|] eqn:Hc; [|done].
    rewrite (counterAt_Some _ _ _ Hc), int_wrap_small; lia.
  - destruct (tracerProviders t !! k), (tracerProvidersCounter t !! k);
      try done; lia.
  - rewrite Hp in *.
    destruct (tracerProvidersCounter t !! k) as [c|] eqn:Hc; [done|].
    rewrite (counterAt_None _ _ Hc), int_wrap_small; lia.
  - destruct (tracerProviders t !! k), (tracerProvidersCounter t !! k);
      try done; lia.
Qed.

Lemma balanced_cleanupTracerProvider (n : Z) key sdk (t : tracerProviderCache) :
  n < 2 ^ 63 → shutdownErr sdk = None → balanced n t →
  balanced n (snd (cleanupTracerProvider key sdk t)).
Proof.
  intros Hn Hsd Hb k. pose proof (Hb k) as Hk. pose proof (Hb key) as Hkey.
  unfold cleanupTracerProvider. rewrite Hsd.
  destruct (tracerProviders t !! key) as [tp|] eqn:Hp;
    destruct (tracerProvidersCounter t !! key) as [c|] eqn:Hc; try done.
  - rewrite (counterAt_Some _ _ _ Hc).
    destruct (Z.ltb_spec 0 c); [|lia].
    rewrite counterAt_insert, decide_True by done.
    rewrite int_wrap_small by lia.
    destruct (Z.eqb_spec (c - 1) 0); simpl;
      destruct (decide (key = k)) as [->|Hne];
      rewrite ?lookup_delete_eq, ?lookup_delete_ne,
              ?lookup_insert_eq, ?lookup_insert_ne by done; try done.
    rewrite Hp. lia.
  - rewrite (counterAt_None _ _ Hc). simpl.
    rewrite (counterAt_None _ _ Hc). simpl.
    destruct (decide (key = k)) as [->|Hne];
      rewrite ?lookup_delete_eq, ?lookup_delete_ne by done; done.
Qed.

Lemma balanced_mono (n m : Z) (t : tracerProviderCache) :
  n ≤ m → balanced n t → balanced m t.
Proof.
  intros Hnm Hb k. specialize (Hb k).
  destruct (tracerProviders t !! k), (tracerProvidersCounter t !! k); try done; lia.
Qed.

Lemma balanced_run (ops : list op) (n : Z) (t : tracerProviderCache) :
  0 ≤ n → n + Z.of_nat (length ops) < 2 ^ 63 → Forall shutdownSucceeds ops →
  balanced n t → balanced (n + Z.of_nat (length ops)) (run ops t).
Proof.
  revert n t. induction ops as [|o ops IH]; intros n t Hn Hlen Hok Hb; simpl.
  - by rewrite Z.add_0_r.
  - inversion Hok as [|? ? Ho Hops]; subst.
    simpl length in Hlen.
    replace (n + Z.of_nat (S (length ops))) with (n + 1 + Z.of_nat (length ops)) in * by lia.
    apply IH; [lia|lia|done|].
    destruct o as [key opts|key sdk]; simpl.
    + apply balanced_getTracerProvider; [lia|done].
    + apply balanced_mono with n; [lia|].
      apply balanced_cleanupTracerProvider; [lia|done|done].
Qed.

Lemma balanced_emptyCache : balanced 0 emptyCache.
Proof. intros k. simpl. by rewrite !lookup_empty. Qed.

(** Without a failing [Shutdown], and below 2^63 calls, every state a run
    from the empty cache reaches satisfies the registry invariant. *)
Lemma registryInvariant_run (ops : list op) :
  Z.of_nat (length ops) < 2 ^ 63 → Forall shutdownSucceeds ops →
  Spec.registryInvariant (run ops emptyCache).
Proof.
  intros Hlen Hok.
  eapply balanced_registryInvariant, (balanced_run ops 0); [lia|lia|done|].
  apply balanced_emptyCache.
Qed.

(** ** What one teardown does *)

(** The last holder releases and [Shutdown] succeeds: the entry and its
    counter are removed, whatever [ForceFlush] returned. *)
Lemma cleanupTracerProvider_last_removes key sdk (t : tracerProviderCache) tp :
  tracerProviders t !! key = Some tp →
  counterAt (tracerProvidersCounter t) key = 1 →
  shutdownErr sdk = None →
  tracerProviders (snd (cleanupTracerProvider key sdk t)) !! key = None
  ∧ tracerProvidersCounter (snd (cleanupTracerProvider key sdk t)) !! key = None.
Proof.
  intros Hp Hc Hsd. unfold cleanupTracerProvider.
  rewrite Hc, Hp, Hsd. simpl.
  rewrite counterAt_insert, decide_True by done. simpl.
  by rewrite !lookup_delete_eq.
Qed.

(** The last holder releases and [Shutdown] fails: the method returns before
    its two [delete]s, the entry stays and its counter is a stored 0. *)
Lemma cleanupTracerProvider_last_keeps key sdk (t : tracerProviderCache) tp err :
  tracerProviders t !! key = Some tp →
  counterAt (tracerProvidersCounter t) key = 1 →
  shutdownErr sdk = Some err →
  tracerProviders (snd (cleanupTracerProvider key sdk t)) !! key = Some tp
  ∧ tracerProvidersCounter (snd (cleanupTracerProvider key sdk t)) !! key = Some 0.
Proof.
  intros Hp Hc Hsd. unfold cleanupTracerProvider.
  rewrite Hc, Hp, Hsd. simpl.
  rewrite counterAt_insert, decide_True by done. simpl.
  by rewrite lookup_insert_eq.
Qed.

(** A key in neither map: the call changes nothing and returns nil. *)
Lemma cleanupTracerProvider_absent key sdk (t : tracerProviderCache) :
  Spec.absent key t → cleanupTracerProvider key sdk t = (None, t).
Proof.
  intros [Hp Hc]. unfold cleanupTracerProvider.
  rewrite (counterAt_None _ _ Hc). simpl.
  rewrite (counterAt_None _ _ Hc), Hp. simpl.
  rewrite !delete_id by done. by destruct t.
Qed.

(** A release that is not the last one only decrements. *)
Lemma cleanupTracerProvider_not_last key sdk (t : tracerProviderCache) c :
  tracerProvidersCounter t !! key = Some c → 2 ≤ c < 2 ^ 63 →
  cleanupTracerProvider key sdk t
  = (None, {| tracerProviders := tracerProviders t;
              tracerProvidersCounter := <[key := c - 1]> (tracerProvidersCounter t);
              allocated := allocated t; calls := calls t |}).
Proof.
  intros Hc Hr. unfold cleanupTracerProvider.
  rewrite (counterAt_Some _ _ _ Hc).
  destruct (Z.ltb_spec 0 c); [|lia].
  rewrite counterAt_insert, decide_True by done.
  rewrite int_wrap_small by lia.
  destruct (Z.eqb_spec (c - 1) 0); [lia|done].
Qed.

(** C1. Claimed: from the empty cache, after any sequence of acquires and
    releases a key has an entry iff its counter is at least 1.  The code does
    not keep this when a [Shutdown] fails: after one acquire of "k" and one
    release whose [Shutdown] returns an error, "k" still has its entry and
    its counter is 0. *)
Theorem registryInvariant_fails_after_failed_shutdown :
  let t := run [Acquire "k" []; Release "k" shutdownFails] emptyCache in
  tracerProviders t !! "k" = Some {| tp_addr := 0; tp_opts := [] |}
  ∧ tracerProvidersCounter t !! "k" = Some 0
  ∧ ¬ Spec.registryInvariant t.
Proof.
  assert (H1 : tracerProviders (run [Acquire "k" []; Release "k" shutdownFails] emptyCache) !! "k"
               = Some {| tp_addr := 0; tp_opts := [] |}) by (vm_compute; reflexivity).
  assert (H2 : tracerProvidersCounter (run [Acquire "k" []; Release "k" shutdownFails] emptyCache) !! "k"
               = Some 0) by (vm_compute; reflexivity).
  cbv zeta. split; [exact H1|]. split; [exact H2|].
  intros Hinv. specialize (Hinv "k").
  rewrite (counterAt_Some _ _ _ H2) in Hinv.
  destruct Hinv as [Hinv _].
  specialize (Hinv (ex_intro _ _ H1)). lia.
Qed.

(** C2. Claimed: when the refcount reaches 0 the entry and its counter are
    removed even if [Shutdown] returns an error.  The code returns the
    wrapped error before the two [delete]s: the release below returns an
    error and leaves both the provider and a counter 0 under "k". *)
Theorem cleanup_returns_before_delete_when_shutdown_fails :
  let t := snd (getTracerProvider "k" [] emptyCache) in
  counterAt (tracerProvidersCounter t) "k" = 1
  ∧ fst (cleanupTracerProvider "k" shutdownFails t)
    = Some (Errorf "tracerProviderCache shutdown error: "
              (ErrCollaborator "context deadline exceeded") "")
  ∧ tracerProviders (snd (cleanupTracerProvider "k" shutdownFails t)) !! "k"
    = Some {| tp_addr := 0; tp_opts := [] |}
  ∧ tracerProvidersCounter (snd (cleanupTracerProvider "k" shutdownFails t)) !! "k"
    = Some 0.
Proof. repeat split; vm_compute; reflexivity. Qed.

(** C4. Claimed: releasing a key whose counter is 0 is a no-op that returns
    nil.  After a release whose [Shutdown] failed, "k" has counter 0 and
    still has its entry; the next release of "k" flushes and shuts the
    provider down again, returns the error of that [Shutdown], and when that
    [Shutdown] succeeds removes the entry. *)
Theorem release_at_counter_zero_tears_down_again :
  let t := run [Acquire "k" []; Release "k" shutdownFails] emptyCache in
  let tp := {| tp_addr := 0; tp_opts := [] |} in
  counterAt (tracerProvidersCounter t) "k" = 0
  ∧ fst (cleanupTracerProvider "k" shutdownFails t)
    = Some (Errorf "tracerProviderCache shutdown error: "
              (ErrCollaborator "context deadline exceeded") "")
  ∧ calls (snd (cleanupTracerProvider "k" shutdownFails t))
    = calls t ++ [CallForceFlush tp; CallShutdown tp]
  ∧ tracerProviders t !! "k" = Some tp
  ∧ tracerProviders (snd (cleanupTracerProvider "k" allFine t)) !! "k" = None.
Proof. repeat split; vm_compute; reflexivity. Qed.

(** C8. During the cleanup of the last holder of a key the error of
    [ForceFlush] is only logged and [Shutdown] is called after it in every
    case; the error [cleanupTracerProvider] returns is the wrapped error of
    [Shutdown] and nil when [Shutdown] succeeded, and [Cleanup] wraps it once
    more.  In every teardown a non-nil error means [Shutdown] was called and
    failed. *)
Theorem teardown_error_is_the_shutdown_error
    (key : string) (sdk : teardown) (t : tracerProviderCache) :
  (∀ err, fst (cleanupTracerProvider key sdk t) = Some err →
     ∃ e tp, shutdownErr sdk = Some e
       ∧ tracerProviders t !! key = Some tp
       ∧ CallShutdown tp ∈ calls (snd (cleanupTracerProvider key sdk t))
       ∧ err = Errorf "tracerProviderCache shutdown error: " e "")
  ∧ (∀ tp, tracerProviders t !! key = Some tp →
       counterAt (tracerProvidersCounter t) key = 1 →
       calls (snd (cleanupTracerProvider key sdk t))
       = calls t ++ [CallForceFlush tp]
           ++ match forceFlushErr sdk with
              | Some e => [CallLoggerError ("forceFlush error: " +:+ Error e)]
              | None => []
              end
           ++ [CallShutdown tp]
       ∧ fst (cleanupTracerProvider key sdk t)
         = (λ e, Errorf "tracerProviderCache shutdown error: " e "")
             <$> shutdownErr sdk
       ∧ ∀ ot, tracerProviderKey (otel ot) = key →
           fst (Cleanup ot sdk t)
           = (λ e, Errorf "tracerProvider shutdown: "
                     (Errorf "tracerProviderCache shutdown error: " e "") "")
               <$> shutdownErr sdk).
Proof.
  split.
  - intros err. unfold cleanupTracerProvider.
    destruct (counterAt _ key =? 0); [|done].
    destruct (tracerProviders t !! key) as [tp|]; [|done].
    destruct (shutdownErr sdk) as [e|]; [|done].
    simpl. intros [= <-]. exists e, tp. repeat split.
    set_solver.
  - intros tp Hp Hc.
    assert (Hfst : fst (cleanupTracerProvider key sdk t)
                   = (λ e, Errorf "tracerProviderCache shutdown error: " e "")
                       <$> shutdownErr sdk).
    { unfold cleanupTracerProvider. rewrite Hc, Hp. simpl.
      rewrite counterAt_insert, decide_True by done. simpl.
      by destruct (shutdownErr sdk). }
    split; [|split; [exact Hfst|]].
    + unfold cleanupTracerProvider. rewrite Hc, Hp. simpl.
      rewrite counterAt_insert, decide_True by done. simpl.
      by destruct (shutdownErr sdk).
    + intros ot Hkey. unfold Cleanup, cleanup. rewrite Hkey.
      destruct (cleanupTracerProvider key sdk t) as [r t'].
      simpl in Hfst. rewrite Hfst. by destruct (shutdownErr sdk).
Qed.

Lemma teardown_error_is_the_shutdown_error_witness :
  let t := snd (getTracerProvider "k" [] emptyCache) in
  let tp := {| tp_addr := 0; tp_opts := [] |} in
  calls (snd (cleanupTracerProvider "k" bothFail t))
  = [CallNewTracerProvider tp; CallForceFlush tp;
     CallLoggerError "forceFlush error: exporter unreachable";
     CallShutdown tp]
  ∧ fst (cleanupTracerProvider "k" bothFail t)
    = Some (Errorf "tracerProviderCache shutdown error: "
              (ErrCollaborator "context deadline exceeded") "").
Proof.
  cbv zeta.
  destruct (teardown_error_is_the_shutdown_error "k" bothFail
              (snd (getTracerProvider "k" [] emptyCache))) as [_ H].
  destruct (H {| tp_addr := 0; tp_opts := [] |}) as (Hcalls & Hfst & _).
  - vm_compute. reflexivity.
  - vm_compute. reflexivity.
  - split; [exact Hcalls | exact Hfst].
Defined.

(** ** One provider per key *)

Lemma getTracerProvider_hit key opts (t : tracerProviderCache) tp :
  tracerProviders t !! key = Some tp →
  fst (getTracerProvider key opts t) = tp
  ∧ tracerProviders (snd (getTracerProvider key opts t)) = tracerProviders t
  ∧ allocated (snd (getTracerProvider key opts t)) = allocated t
  ∧ calls (snd (getTracerProvider key opts t)) = calls t.
Proof. intros Hp. unfold getTracerProvider. by rewrite Hp. Qed.

Lemma getTracerProvider_entry key opts (t : tracerProviderCache) :
  tracerProviders (snd (getTracerProvider key opts t)) !! key
  = Some (fst (getTracerProvider key opts t)).
Proof.
  unfold getTracerProvider.
  destruct (tracerProviders t !! key) eqn:Hp; simpl; [done|].
  by rewrite lookup_insert_eq.
Qed.

(** A call never replaces the provider of a key: the entry is the same
    afterwards, or gone. *)
Lemma step_keeps_provider (o : op) key (t : tracerProviderCache) tp :
  tracerProviders t !! key = Some tp →
  is_Some (tracerProviders (step t o) !! key) →
  tracerProviders (step t o) !! key = Some tp.
Proof.
  intros Hp. destruct o as [k opts|k sdk]; simpl.
  - unfold getTracerProvider.
    destruct (tracerProviders t !! k) eqn:Hk; simpl; [done|].
    destruct (decide (k = key)) as [->|Hne]; [congruence|].
    by rewrite lookup_insert_ne.
  - unfold cleanupTracerProvider.
    destruct (counterAt _ k =? 0); [|done].
    destruct (tracerProviders t !! k) eqn:Hk;
      [destruct (shutdownErr sdk)|]; simpl; try done;
      (destruct (decide (k = key)) as [->|Hne];
       [rewrite lookup_delete_eq; by intros [? ?]
       |by rewrite lookup_delete_ne]).
Qed.

Lemma run_keeps_provider (ops : list op) key (t : tracerProviderCache) tp :
  tracerProviders t !! key = Some tp →
  liveThroughout key ops t →
  tracerProviders (run ops t) !! key = Some tp.
Proof.
  revert t. induction ops as [|o ops IH]; intros t Hp Hlive; [done|].
  destruct Hlive as [_ Hlive]. simpl. apply IH; [|done].
  apply step_keeps_provider; [done|]. by destruct ops; destruct Hlive.
Qed.

Lemma owned_emptyCache : owned [] emptyCache.
Proof.
  repeat split; intros *; simpl; try (by intros ?%elem_of_nil).
  by rewrite lookup_empty.
Qed.

Lemma owned_getTracerProvider h key opts (t : tracerProviderCache) :
  owned h t →
  owned (h ++ [(key, fst (getTracerProvider key opts t))])
        (snd (getTracerProvider key opts t)).
Proof.
  intros (Hlt & Hinj & Hin). unfold getTracerProvider.
  destruct (tracerProviders t !! key) as [val|] eqn:Hp; simpl.
  - pose proof (Hin _ _ Hp) as Hval.
    assert (Hsub : ∀ kp, kp ∈ h ++ [(key, val)] → kp ∈ h).
    { intros kp [?|Hkp%list_elem_of_singleton]%elem_of_app; [done|by subst]. }
    repeat split.
    + intros k p Hk. apply Hsub in Hk. eauto.
    + intros k1 p1 k2 p2 H1 H2. apply Hsub in H1, H2. eauto.
    + intros k p Hk. apply elem_of_app. left. eauto.
  - repeat split.
    + intros k p [Hk|Hk%list_elem_of_singleton]%elem_of_app.
      * apply Hlt in Hk. simpl. lia.
      * injection Hk as -> ->. simpl. lia.
    + intros k1 p1 k2 p2
        [H1|H1%list_elem_of_singleton]%elem_of_app
        [H2|H2%list_elem_of_singleton]%elem_of_app Haddr.
      * eauto.
      * injection H2 as -> ->. apply Hlt in H1. simpl in Haddr. lia.
      * injection H1 as -> ->. apply Hlt in H2. simpl in Haddr. lia.
      * congruence.
    + intros k p. simpl. destruct (decide (key = k)) as [->|Hne].
      * rewrite lookup_insert_eq. intros [= <-]. set_solver.
      * rewrite lookup_insert_ne by done. intros Hk. set_solver.
Qed.

Lemma owned_cleanupTracerProvider h key sdk (t : tracerProviderCache) :
  owned h t → owned h (snd (cleanupTracerProvider key sdk t)).
Proof.
  intros (Hlt & Hinj & Hin).
  assert (Hsub : ∀ k p,
            tracerProviders (snd (cleanupTracerProvider key sdk t)) !! k = Some p →
            tracerProviders t !! k = Some p).
  { intros k p. unfold cleanupTracerProvider.
    destruct (counterAt _ key =? 0); [|done].
    destruct (tracerProviders t !! key);
      [destruct (shutdownErr sdk)|]; simpl; try done;
      by intros [_ ?]%lookup_delete_Some. }
  assert (Halloc : allocated (snd (cleanupTracerProvider key sdk t)) = allocated t).
  { unfold cleanupTracerProvider.
    destruct (counterAt _ key =? 0); [|done].
    by destruct (tracerProviders t !! key); [destruct (shutdownErr sdk)|]. }
  repeat split.
  - intros k p Hk. rewrite Halloc. eauto.
  - done.
  - eauto.
Qed.

Lemma owned_run (ops : list op) h (t : tracerProviderCache) :
  owned h t → owned (h ++ acquired ops t) (run ops t).
Proof.
  revert h t. induction ops as [|o ops IH]; intros h t Ho; simpl.
  - by rewrite app_nil_r.
  - destruct o as [key opts|key sdk].
    + rewrite (cons_middle _ h), app_assoc.
      apply IH. by apply owned_getTracerProvider.
    + apply IH. by apply owned_cleanupTracerProvider.
Qed.

(** C3. Two acquires of one key, with the entry live in every state between
    them, return the same provider, and the second creates none; in a run
    from the empty cache two acquires of different keys never return
    providers at the same address. *)
Theorem one_provider_per_key :
  (∀ key opts opts' (ops : list op) (t : tracerProviderCache),
     let tp := fst (getTracerProvider key opts t) in
     let t1 := snd (getTracerProvider key opts t) in
     liveThroughout key ops t1 →
     fst (getTracerProvider key opts' (run ops t1)) = tp
     ∧ allocated (snd (getTracerProvider key opts' (run ops t1)))
       = allocated (run ops t1)
     ∧ calls (snd (getTracerProvider key opts' (run ops t1)))
       = calls (run ops t1))
  ∧ (∀ (ops : list op) k1 p1 k2 p2,
       (k1, p1) ∈ acquired ops emptyCache →
       (k2, p2) ∈ acquired ops emptyCache →
       k1 ≠ k2 → tp_addr p1 ≠ tp_addr p2).
Proof.
  split.
  - intros key opts opts' ops t tp t1 Hlive.
    pose proof (run_keeps_provider ops key t1 tp
                  (getTracerProvider_entry key opts t) Hlive) as Hp.
    destruct (getTracerProvider_hit key opts' _ _ Hp) as (? & _ & ? & ?).
    done.
  - intros ops k1 p1 k2 p2 H1 H2 Hne Haddr.
    destruct (owned_run ops [] emptyCache owned_emptyCache) as (_ & Hinj & _).
    apply Hne. eapply Hinj; eauto.
Qed.

Lemma one_provider_per_key_witness :
  fst (getTracerProvider "a" []
         (run [Acquire "b" []; Release "b" allFine]
            (snd (getTracerProvider "a" [] emptyCache))))
  = {| tp_addr := 0; tp_opts := [] |}
  ∧ tp_addr {| tp_addr := 0; tp_opts := [] |}
    ≠ tp_addr {| tp_addr := 1; tp_opts := [] |}.
Proof.
  destruct one_provider_per_key as [Hsame Hdiff]. split.
  - apply (Hsame "a" [] [] [Acquire "b" []; Release "b" allFine] emptyCache).
    vm_compute. repeat split; by eexists.
  - apply (Hdiff [Acquire "a" []; Acquire "b" []; Acquire "a" []] "a"
             {| tp_addr := 0; tp_opts := [] |} "b"
             {| tp_addr := 1; tp_opts := [] |}).
    + vm_compute. apply list_elem_of_here.
    + vm_compute. apply list_elem_of_further, list_elem_of_here.
    + discriminate.
Defined.

(** ** Propagators *)

Lemma codec_append (name : string) (l : list TextMapPropagator) :
  (if decide (name = "baggage") then l ++ [Baggage]
   else if decide (name = "tracecontext") then l ++ [TraceContext] else l)
  = l ++ option_list (Spec.codec name).
Proof.
  unfold Spec.codec. repeat case_decide; simpl; by rewrite ?app_nil_r.
Qed.

Lemma getPropagators_body_seen (seen : gset string) l (v : string) :
  strings.TrimSpace v ∈ seen →
  getPropagators_body (seen, l) v = (seen, l).
Proof. intros Hin. unfold getPropagators_body. by rewrite decide_True. Qed.

Lemma getPropagators_body_new (seen : gset string) l (v : string) :
  strings.TrimSpace v ∉ seen →
  getPropagators_body (seen, l) v
  = ({[strings.TrimSpace v]} ∪ seen,
     l ++ option_list (Spec.codec (strings.TrimSpace v))).
Proof.
  intros Hin. unfold getPropagators_body.
  by rewrite decide_False, codec_append.
Qed.

Lemma filter_all {A} (P : A → Prop) `{!∀ x, Decision (P x)} (l : list A) :
  (∀ x, P x) → filter P l = l.
Proof.
  intros HP. induction l as [|x l IH]; [done|].
  rewrite filter_cons_True by done. by rewrite IH.
Qed.

(** The loop of [getPropagators] from any state: the names already seen are
    skipped, the others contribute at their first occurrence. *)
Lemma getPropagators_loop (pieces : list string) (seen : gset string)
    (l : list TextMapPropagator) :
  snd (fold_left getPropagators_body pieces (seen, l))
  = l ++ omap Spec.codec
           (filter (λ name, name ∉ seen)
              (Spec.keepFirst (strings.TrimSpace <$> pieces))).
Proof.
  revert seen l. induction pieces as [|v pieces IH]; intros seen l.
  - simpl. by rewrite app_nil_r.
  - change (fold_left getPropagators_body (v :: pieces) (seen, l))
      with (fold_left getPropagators_body pieces
              (getPropagators_body (seen, l) v)).
    rewrite fmap_cons.
    change (Spec.keepFirst (strings.TrimSpace v :: (strings.TrimSpace <$> pieces)))
      with (strings.TrimSpace v
              :: (filter (λ other, other ≠ strings.TrimSpace v)
                    (Spec.keepFirst (strings.TrimSpace <$> pieces)))).
    destruct (decide (strings.TrimSpace v ∈ seen)) as [Hin|Hnotin].
    + rewrite getPropagators_body_seen, IH by done. f_equal. f_equal.
      rewrite filter_cons_False by (intros H; apply H; exact Hin).
      rewrite list_filter_filter. apply list_filter_iff.
      intros name. split; [|tauto]. intros Hn. split; [done|]. congruence.
    + rewrite getPropagators_body_new, IH, <- app_assoc by done. f_equal.
      rewrite filter_cons_True by done.
      rewrite list_filter_filter.
      rewrite (list_filter_iff
                 (λ name, name ∉ ({[strings.TrimSpace v]} ∪ seen : gset string))
                 (λ name, (name ∉ seen) ∧ (name ≠ strings.TrimSpace v)))
        by (intros name; rewrite not_elem_of_union, not_elem_of_singleton; tauto).
      simpl. by destruct (Spec.codec (strings.TrimSpace v)).
Qed.

(** C5. "tracecontext,tracecontext,baggage" builds the composite of
    "tracecontext,baggage"; for every string the composite is the one of the
    specification: pieces between commas, trimmed, first occurrences only,
    unrecognized names dropped, codecs in first-seen order. *)
Theorem getPropagators_builds_deduplicated_composite :
  getPropagators "tracecontext,tracecontext,baggage"
  = getPropagators "tracecontext,baggage"
  ∧ getPropagators "tracecontext,baggage"
    = NewCompositeTextMapPropagator [TraceContext; Baggage]
  ∧ ∀ names : string, getPropagators names = Spec.build names.
Proof.
  split; [by vm_compute|]. split; [by vm_compute|].
  intros names. unfold getPropagators, Spec.build.
  pose proof (getPropagators_loop (strings.Split names ",") ∅ []) as H.
  destruct (fold_left _ _ _) as [seen l].
  rewrite app_nil_l, filter_all in H by set_solver. by rewrite <- H.
Qed.

(** ** Setup *)

(** [newOpenTelemetryWrapper], in the vocabulary of the resolved values. *)
Lemma newOpenTelemetryWrapper_paths (env : collaborators)
    (serviceName propagators tracerName spanName : string)
    (cfg : tracerExporterConfig) (t : tracerProviderCache) :
  newOpenTelemetryWrapper env serviceName propagators tracerName spanName cfg t
  = let ot := {| tracer := None; propagators := None;
                 tracerProviderKey := "";
                 spanName := resolvedSpanName spanName |} in
    match newResource env (resolvedServiceName serviceName) webEngineName
            (CaddyVersion env) with
    | Err err => (ot, Some (Errorf "creating resource error: " err ""), t)
    | Ok res =>
        if decide (exporterTracesProtocol (resolvedConfig env cfg) = "") then
          (ot, Some ErrUnspecifiedTracesProtocol, t)
        else
          match getTracerExporter env (resolvedConfig env cfg) with
          | Err err =>
              (ot, Some (Errorf "creating trace exporter error: " err ""), t)
          | Ok traceExporter =>
              if decide (resolvedPropagators env propagators = "") then
                (ot, Some ErrUnspecifiedPropagators, t)
              else
                let key := tracerProviderKeyOf (resolvedServiceName serviceName)
                             tracerName (resolvedConfig env cfg) in
                let acquired :=
                  getTracerProvider key
                    [WithBatcher traceExporter; WithResource res] t in
                ({| tracer := Some {| tracer_provider := fst acquired;
                                      tracer_name := tracerName |};
                    propagators :=
                      Some (getPropagators (resolvedPropagators env propagators));
                    tracerProviderKey := key;
                    spanName := resolvedSpanName spanName |},
                 None, snd acquired)
          end
    end.
Proof.
  unfold newOpenTelemetryWrapper, resolvedServiceName, resolvedSpanName,
    resolvedPropagators, resolvedConfig. simpl.
  destruct (newResource _ _ _ _); [|done].
  destruct (decide (exporterTracesProtocol cfg = ""));
    (case_decide; [done|]);
    (destruct (getTracerExporter _ _); [|done]);
    (destruct (decide (propagators = "")); (case_decide; [done|]));
    by destruct (getTracerProvider _ _ _).
Qed.

Lemma getTracerExporter_not_grpc (env : collaborators) (cfg : tracerExporterConfig) :
  exporterTracesProtocol cfg ≠ "grpc" →
  getTracerExporter env cfg
  = Err (Errorf "" ErrNonSupportedTracesProtocol
           (": tracesProtocol " +:+ exporterTracesProtocol cfg)).
Proof. intros Hp. unfold getTracerExporter. by rewrite decide_False. Qed.

Lemma getTracerExporter_Ok_grpc (env : collaborators) (cfg : tracerExporterConfig) e :
  getTracerExporter env cfg = Ok e → exporterTracesProtocol cfg = "grpc".
Proof.
  intros H. destruct (decide (exporterTracesProtocol cfg = "grpc")); [done|].
  by rewrite getTracerExporter_not_grpc in H.
Qed.

(** C6, as amended.  [newOpenTelemetryWrapper] returns
    [ErrUnspecifiedPropagators] exactly when the resource and the exporter
    were created and the propagators string, after the fallback to
    [OTEL_PROPAGATORS], is empty; the composite of that string has no member.
    The test is on the string, not on the members. *)
Theorem ErrUnspecifiedPropagators_iff_empty_string (env : collaborators)
    (serviceName propagators tracerName spanName : string)
    (cfg : tracerExporterConfig) (t : tracerProviderCache) :
  (snd (fst (newOpenTelemetryWrapper env serviceName propagators tracerName
               spanName cfg t)) = Some ErrUnspecifiedPropagators
   ↔ (∃ res, newResource env (resolvedServiceName serviceName) webEngineName
               (CaddyVersion env) = Ok res)
     ∧ (∃ e, getTracerExporter env (resolvedConfig env cfg) = Ok e)
     ∧ resolvedPropagators env propagators = "")
  ∧ members (getPropagators "") = [].
Proof.
  split; [|by vm_compute].
  rewrite newOpenTelemetryWrapper_paths. cbv zeta.
  destruct (newResource _ _ _ _) as [res|err].
  2: { cbn [fst snd]. split; [done|]. by intros [[? ?] _]. }
  destruct (getTracerExporter env (resolvedConfig env cfg)) as [e|err] eqn:He.
  - rewrite decide_False
      by (rewrite (getTracerExporter_Ok_grpc _ _ _ He); discriminate).
    destruct (decide (resolvedPropagators env propagators = "")); cbn [fst snd].
    + split; [|done]. intros _. eauto.
    + split; [done|]. by intros (_ & _ & ?).
  - destruct (decide (exporterTracesProtocol (resolvedConfig env cfg) = ""));
      cbn [fst snd]; (split; [done|]); by intros (_ & [? ?] & _).
Qed.

(** C6, as claimed, fails: for the propagators string "foo" the composite
    has no member and no error is returned. *)
Lemma empty_composite_without_ErrUnspecifiedPropagators :
  ¬ (snd (fst (newOpenTelemetryWrapper plainProcess "" "foo" "my-tracer"
                 "my-span" grpcInsecure emptyCache))
     = Some ErrUnspecifiedPropagators
     ↔ members (getPropagators (resolvedPropagators plainProcess "foo")) = []).
Proof.
  intros [_ H].
  assert (Hm : members (getPropagators (resolvedPropagators plainProcess "foo")) = [])
    by (vm_compute; reflexivity).
  specialize (H Hm). vm_compute in H. discriminate H.
Qed.

(** C9, as amended.  When the resolved protocol is neither empty nor
    "grpc", setup returns an error and the cache is the one it started from:
    no [getTracerProvider] was called, no tracer is set.  [newResource] runs
    before the protocol is looked at; when it succeeded the error is
    [ErrNonSupportedTracesProtocol], wrapped twice. *)
Theorem unsupported_protocol_fails_without_acquire (env : collaborators)
    (serviceName propagators tracerName spanName : string)
    (cfg : tracerExporterConfig) (t : tracerProviderCache) :
  exporterTracesProtocol (resolvedConfig env cfg) ≠ "" →
  exporterTracesProtocol (resolvedConfig env cfg) ≠ "grpc" →
  let r := newOpenTelemetryWrapper env serviceName propagators tracerName
             spanName cfg t in
  snd r = t
  ∧ tracer (fst (fst r)) = None
  ∧ snd (fst r) ≠ None
  ∧ ∀ res, newResource env (resolvedServiceName serviceName) webEngineName
             (CaddyVersion env) = Ok res →
      snd (fst r)
      = Some (Errorf "creating trace exporter error: "
                (Errorf "" ErrNonSupportedTracesProtocol
                   (": tracesProtocol "
                    +:+ exporterTracesProtocol (resolvedConfig env cfg))) "")
      ∧ ∀ err, snd (fst r) = Some err →
          errors_Is err ErrNonSupportedTracesProtocol = true.
Proof.
  intros Hne Hng r. subst r.
  rewrite newOpenTelemetryWrapper_paths. cbv zeta.
  destruct (newResource _ _ _ _) as [res|err].
  - rewrite decide_False by done.
    rewrite getTracerExporter_not_grpc by done. cbn [fst snd tracer].
    split; [done|]. split; [done|]. split; [done|].
    intros res' _. split; [done|]. intros err [= <-]. reflexivity.
  - cbn [fst snd tracer].
    split; [done|]. split; [done|]. split; [done|]. intros res' [=].
Qed.

Lemma unsupported_protocol_fails_without_acquire_witness :
  let r := newOpenTelemetryWrapper plainProcess "" "tracecontext,baggage"
             "my-tracer" "my-span" http11Insecure emptyCache in
  snd r = emptyCache
  ∧ snd (fst r)
    = Some (Errorf "creating trace exporter error: "
              (Errorf "" ErrNonSupportedTracesProtocol
                 ": tracesProtocol http/1.1") "").
Proof.
  cbv zeta.
  destruct (unsupported_protocol_fails_without_acquire plainProcess ""
              "tracecontext,baggage" "my-tracer" "my-span" http11Insecure
              emptyCache) as (Hsame & _ & _ & Herr).
  - vm_compute. discriminate.
  - vm_compute. discriminate.
  - split; [exact Hsame|].
    destruct (Herr {| attributes :=
                        [("telemetry.sdk.language", "go");
                         ("telemetry.sdk.name", "opentelemetry");
                         ("service.name", "caddyService");
                         ("webengine.name", "Caddy");
                         ("webengine.description", "v2.5.0")] |})
      as [He _]; [vm_compute; reflexivity|exact He].
Defined.

(** C9, as claimed, fails: with the protocol "http/1.1" and a resource that
    cannot be created, setup returns the error of the resource, which does
    not wrap [ErrNonSupportedTracesProtocol]. *)
Lemma unsupported_protocol_with_failing_resource :
  exporterTracesProtocol (resolvedConfig noResource http11Insecure) ≠ ""
  ∧ exporterTracesProtocol (resolvedConfig noResource http11Insecure) ≠ "grpc"
  ∧ ¬ (∃ err,
         snd (fst (newOpenTelemetryWrapper noResource "" "tracecontext,baggage"
                     "my-tracer" "my-span" http11Insecure emptyCache))
         = Some err
         ∧ errors_Is err ErrNonSupportedTracesProtocol = true).
Proof.
  split; [vm_compute; discriminate|]. split; [vm_compute; discriminate|].
  intros (err & Herr & His).
  assert (Hr : snd (fst (newOpenTelemetryWrapper noResource ""
                           "tracecontext,baggage" "my-tracer" "my-span"
                           http11Insecure emptyCache))
               = Some (Errorf "creating resource error: "
                         (ErrCollaborator "resource detection failed") ""))
    by (vm_compute; reflexivity).
  rewrite Hr in Herr. injection Herr as <-.
  vm_compute in His. discriminate His.
Qed.

(** C10. [newOpenTelemetryWrapper] replaces an empty service name by
    "caddyService" and an empty span name by "handler" before anything else:
    a call with the empty name is the call with the default, the wrapper
    carries the defaulted span name on every path, and on success the key of
    the tracer provider and the resource of a provider created for it are
    made from the defaulted service name. *)
Theorem empty_names_are_defaulted (env : collaborators)
    (propagators tracerName : string) (cfg : tracerExporterConfig)
    (t : tracerProviderCache) :
  defaultServiceName = "caddyService" ∧ defaultSpanName = "handler"
  ∧ (∀ spanName,
       newOpenTelemetryWrapper env "" propagators tracerName spanName cfg t
       = newOpenTelemetryWrapper env defaultServiceName propagators tracerName
           spanName cfg t)
  ∧ (∀ serviceName,
       newOpenTelemetryWrapper env serviceName propagators tracerName "" cfg t
       = newOpenTelemetryWrapper env serviceName propagators tracerName
           defaultSpanName cfg t)
  ∧ (∀ serviceName spanName',
       spanName (fst (fst (newOpenTelemetryWrapper env serviceName propagators
                             tracerName spanName' cfg t)))
       = resolvedSpanName spanName')
  ∧ (∀ spanName,
       let r := newOpenTelemetryWrapper env "" propagators tracerName
                  spanName cfg t in
       snd (fst r) = None →
       tracerProviderKey (fst (fst r))
       = tracerProviderKeyOf "caddyService" tracerName (resolvedConfig env cfg)
       ∧ ∃ res e tp,
           newResource env "caddyService" webEngineName (CaddyVersion env) = Ok res
           ∧ getTracerExporter env (resolvedConfig env cfg) = Ok e
           ∧ tracer (fst (fst r))
             = Some {| tracer_provider := tp; tracer_name := tracerName |}
           ∧ (tracerProviders t !! tracerProviderKey (fst (fst r)) = None →
              tp_opts tp = [WithBatcher e; WithResource res])).
Proof.
  split; [done|]. split; [done|]. split; [done|]. split; [done|]. split.
  - intros serviceName spanName'. rewrite newOpenTelemetryWrapper_paths.
    cbv zeta. by repeat case_match.
  - intros spanName r. subst r. rewrite newOpenTelemetryWrapper_paths.
    cbv zeta.
    change (resolvedServiceName "") with "caddyService".
    destruct (newResource _ _ _ _) as [res|err]; [|done].
    destruct (decide (exporterTracesProtocol (resolvedConfig env cfg) = ""));
      [done|].
    destruct (getTracerExporter _ _) as [e|err]; [|done].
    destruct (decide (resolvedPropagators env propagators = "")); [done|].
    cbn [fst snd tracer tracerProviderKey]. intros _. split; [done|].
    eexists res, e, _. split; [done|]. split; [done|]. split; [done|].
    intros Hmiss. unfold getTracerProvider. by rewrite Hmiss.
Qed.

Lemma empty_names_are_defaulted_witness :
  let r := newOpenTelemetryWrapper plainProcess "" "tracecontext,baggage"
             "my-tracer" "" grpcInsecure emptyCache in
  tracerProviderKey (fst (fst r)) = "caddyService-my-tracer-grpc-true--"
  ∧ spanName (fst (fst r)) = "handler".
Proof.
  cbv zeta.
  destruct (empty_names_are_defaulted plainProcess "tracecontext,baggage"
              "my-tracer" grpcInsecure emptyCache)
    as (_ & _ & _ & _ & Hspan & Hkey).
  split.
  - destruct (Hkey "") as [Hk _]; [vm_compute; reflexivity|exact Hk].
  - exact (Hspan "" "").
Defined.

(** ** The key of the tracer provider *)

Lemma formatBool_hyphenFree (b : bool) : hyphenFree (formatBool b) = true.
Proof. by destruct b. Qed.

Lemma formatBool_inj (b1 b2 : bool) : formatBool b1 = formatBool b2 → b1 = b2.
Proof. by destruct b1, b2. Qed.

(** A field without hyphen ends at the first hyphen of the key. *)
Lemma hyphen_delimits (a b rest rest' : string) :
  hyphenFree a = true → hyphenFree b = true →
  a +:+ "-" +:+ rest = b +:+ "-" +:+ rest' → a = b ∧ rest = rest'.
Proof.
  revert b. induction a as [|c a IH]; intros [|d b] Ha Hb Heq; simpl in *.
  - by injection Heq.
  - injection Heq as <- _. done.
  - injection Heq as -> _. done.
  - injection Heq as -> Heq.
    apply andb_prop in Ha as [_ Ha]. apply andb_prop in Hb as [_ Hb].
    destruct (IH b Ha Hb Heq) as [-> ->]. done.
Qed.

(** The key separates configurations whose service name, tracer name,
    protocol and certificate contain no hyphen. *)
Lemma tracerProviderKeyOf_inj_hyphenFree (s1 n1 s2 n2 : string)
    (c1 c2 : tracerExporterConfig) :
  hyphenFree s1 = true → hyphenFree n1 = true →
  hyphenFree (exporterTracesProtocol c1) = true →
  hyphenFree (exporterCertificate c1) = true →
  hyphenFree s2 = true → hyphenFree n2 = true →
  hyphenFree (exporterTracesProtocol c2) = true →
  hyphenFree (exporterCertificate c2) = true →
  tracerProviderKeyOf s1 n1 c1 = tracerProviderKeyOf s2 n2 c2 →
  s1 = s2 ∧ n1 = n2 ∧ c1 = c2.
Proof.
  intros Hs1 Hn1 Hp1 Hc1 Hs2 Hn2 Hp2 Hc2. unfold tracerProviderKeyOf. intros H.
  apply hyphen_delimits in H as [-> H]; [|done..].
  apply hyphen_delimits in H as [-> H]; [|done..].
  apply hyphen_delimits in H as [Hp H]; [|done..].
  apply hyphen_delimits in H as [Hi%formatBool_inj H];
    [|apply formatBool_hyphenFree..].
  apply hyphen_delimits in H as [Hc He]; [|done..].
  split; [done|]. split; [done|].
  destruct c1, c2; simpl in *; by subst.
Qed.

(** C7. Claimed: configurations that differ in a field have different keys.
    The fields are joined by hyphens and may contain hyphens: service
    "my-service" with tracer "tracer" and service "my" with tracer
    "service-tracer" have the same key, so the second handler gets the
    tracer provider created for the first, with the first one's resource. *)
Theorem tracerProviderKeyOf_collides_on_hyphens :
  tracerProviderKeyOf "my-service" "tracer" grpcInsecure
  = tracerProviderKeyOf "my" "service-tracer" grpcInsecure
  ∧ let r1 := newOpenTelemetryWrapper plainProcess "my-service" "tracecontext"
                "tracer" "" grpcInsecure emptyCache in
    let r2 := newOpenTelemetryWrapper plainProcess "my" "tracecontext"
                "service-tracer" "" grpcInsecure (snd r1) in
    snd (fst r1) = None ∧ snd (fst r2) = None
    ∧ tracerProviderKey (fst (fst r2)) = "my-service-tracer-grpc-true--"
    ∧ tracer_provider <$> tracer (fst (fst r2))
      = tracer_provider <$> tracer (fst (fst r1))
    ∧ tracerProvidersCounter (snd r2) !! "my-service-tracer-grpc-true--" = Some 2
    ∧ allocated (snd r2) = 1%nat.
Proof. split; [by vm_compute|]. cbv zeta. repeat split; by vm_compute. Qed.

(** ** The package's own tests, on the model *)

(** [Test_tracersProviderCache_getTracerProvider] *)
Example test_getTracerProvider :
  let tpc := run [Acquire "myKey1" []; Acquire "myKey1" []; Acquire "myKey2" []]
               emptyCache in
  size (tracerProviders tpc) = 2%nat
  ∧ counterAt (tracerProvidersCounter tpc) "myKey1" = 2
  ∧ counterAt (tracerProvidersCounter tpc) "myKey2" = 1.
Proof. by vm_compute. Qed.

(** [Test_tracersProviderCache_cleanupTracerProvider] *)
Example test_cleanupTracerProvider :
  let tpc := run [Acquire "myKey1" []; Acquire "myKey1" []; Acquire "myKey2" []]
               emptyCache in
  let r1 := cleanupTracerProvider "myKey1" allFine tpc in
  let r2 := cleanupTracerProvider "myKey1" allFine (snd r1) in
  fst r1 = None
  ∧ counterAt (tracerProvidersCounter (snd r1)) "myKey1" = 1
  ∧ is_Some (tracerProviders (snd r1) !! "myKey1")
  ∧ counterAt (tracerProvidersCounter (snd r1)) "myKey2" = 1
  ∧ is_Some (tracerProviders (snd r1) !! "myKey2")
  ∧ fst r2 = None
  ∧ counterAt (tracerProvidersCounter (snd r2)) "myKey1" = 0
  ∧ tracerProviders (snd r2) !! "myKey1" = None.
Proof. cbv zeta. repeat split; try (by vm_compute); vm_compute; by eexists. Qed.

(** [TestOpenTelemetry_newOpenTelemetryWrapper_Error] *)
Example test_newOpenTelemetryWrapper_Error :
  let setup env tracesProtocol propagators :=
    snd (fst (newOpenTelemetryWrapper env "" propagators "my-tracer" "my-span"
                (testConfig tracesProtocol) emptyCache)) in
  setup (Setenv "OTEL_EXPORTER_OTLP_PROTOCOL" "grpc" plainProcess) "" ""
  = Some ErrUnspecifiedPropagators
  ∧ setup (Setenv "OTEL_PROPAGATORS" "tracecontext,baggage" plainProcess) "" ""
    = Some ErrUnspecifiedTracesProtocol
  ∧ setup plainProcess "grpc" "" = Some ErrUnspecifiedPropagators
  ∧ setup plainProcess "" "tracecontext,baggage"
    = Some ErrUnspecifiedTracesProtocol
  ∧ (λ err, errors_Is err ErrNonSupportedTracesProtocol)
      <$> setup plainProcess "non supported" "tracecontext,baggage"
    = Some true.
Proof. cbv zeta. repeat split; by vm_compute. Qed.

(** [TestOpenTelemetry_newOpenTelemetryWrapper]: the protocol and the
    propagators from the environment, or from the arguments. *)
Example test_newOpenTelemetryWrapper :
  let setup env tracesProtocol propagators :=
    fst (newOpenTelemetryWrapper env "" propagators "my-tracer" "my-span"
           (testConfig tracesProtocol) emptyCache) in
  let env := Setenv "OTEL_EXPORTER_OTLP_PROTOCOL" "grpc"
               (Setenv "OTEL_PROPAGATORS" "tracecontext,baggage" plainProcess) in
  snd (setup env "" "") = None
  ∧ is_Some (tracer (fst (setup env "" "")))
  ∧ propagators (fst (setup env "" ""))
    = Some (NewCompositeTextMapPropagator [TraceContext; Baggage])
  ∧ setup plainProcess "grpc" "tracecontext,baggage" = setup env "" "".
Proof. cbv zeta. repeat split; try (by vm_compute); vm_compute; by eexists. Qed.

(** Two handlers with the same configuration share one entry with counter
    2; their two cleanups remove it and shut the provider down once, also
    when the flush fails. *)
Example two_handlers_one_provider :
  let handler := {| TracerName := "my-tracer"; SpanName := "";
                    ServiceName := ""; Propagators := "tracecontext";
                    ExporterTracesEndpoint := "localhost:4317";
                    ExporterTracesProtocol := "grpc";
                    ExporterInsecure := "true"; ExporterCertificate := "";
                    otel := {| tracer := None; propagators := None;
                               tracerProviderKey := ""; spanName := "" |} |} in
  let p1 := Provision plainProcess handler emptyCache in
  let p2 := Provision plainProcess handler (snd p1) in
  let key := "caddyService-my-tracer-grpc-true--localhost:4317" in
  let c1 := Cleanup (fst (fst p1)) allFine (snd p2) in
  let c2 := Cleanup (fst (fst p2)) flushFails (snd c1) in
  snd (fst p1) = None ∧ snd (fst p2) = None
  ∧ size (tracerProviders (snd p2)) = 1%nat
  ∧ tracerProvidersCounter (snd p2) !! key = Some 2
  ∧ fst c1 = None ∧ tracerProvidersCounter (snd c1) !! key = Some 1
  ∧ fst c2 = None
  ∧ tracerProviders (snd c2) = ∅ ∧ tracerProvidersCounter (snd c2) = ∅
  ∧ ∃ tp, tracer_provider <$> tracer (otel (fst (fst p2))) = Some tp
      ∧ calls (snd c2)
        = [CallNewTracerProvider tp; CallForceFlush tp;
           CallLoggerError "forceFlush error: exporter unreachable";
           CallShutdown tp].
Proof.
  cbv zeta. repeat split; try (by vm_compute).
  eexists. split; vm_compute; reflexivity.
Qed.

(** * Further properties *)

(** ** The registry, with and without failing shutdowns *)

(** X1. In a run from the empty cache of fewer than 2^63 calls in which no
    [Shutdown] fails, every state has an entry for a key exactly when the
    counter of the key is at least 1. *)
Theorem registry_invariant_without_shutdown_failure (ops : list op) :
  Z.of_nat (length ops) < 2 ^ 63 → Forall shutdownSucceeds ops →
  ∀ key : string,
    is_Some (tracerProviders (run ops emptyCache) !! key)
    ↔ 1 ≤ counterAt (tracerProvidersCounter (run ops emptyCache)) key.
Proof.
  intros Hlen Hok.
  apply (balanced_registryInvariant (0 + Z.of_nat (length ops))).
  apply balanced_run; [lia|lia|done|apply balanced_emptyCache].
Qed.

Lemma registry_invariant_without_shutdown_failure_witness :
  is_Some (tracerProviders
             (run [Acquire "a" []; Acquire "a" []; Release "a" flushFails]
                emptyCache) !! "a")
  ↔ 1 ≤ counterAt (tracerProvidersCounter
                     (run [Acquire "a" []; Acquire "a" []; Release "a" flushFails]
                        emptyCache)) "a".
Proof.
  apply (registry_invariant_without_shutdown_failure
           [Acquire "a" []; Acquire "a" []; Release "a" flushFails]).
  - vm_compute. reflexivity.
  - repeat constructor.
Defined.

Lemma recorded_emptyCache : recorded 0 emptyCache.
Proof. intros k. simpl. by rewrite !lookup_empty. Qed.

Lemma recorded_getTracerProvider (n : Z) key opts (t : tracerProviderCache) :
  0 ≤ n < 2 ^ 63 - 1 → recorded n t →
  recorded (n + 1) (snd (getTracerProvider key opts t)).
Proof.
  intros Hn Hb k. pose proof (Hb k) as Hk. pose proof (Hb key) as Hkey.
  unfold getTracerProvider.
  destruct (tracerProviders t !! key) as [val|] eqn:Hp; simpl;
    destruct (decide (key = k)) as [->|Hne];
    rewrite ?lookup_insert_eq, ?lookup_insert_ne by done.
  - rewrite Hp in *.
    destruct (tracerProvidersCounter t !! k) as [c|] eqn:Hc; [|done].
    rewrite (counterAt_Some _ _ _ Hc), int_wrap_small; lia.
  - destruct (tracerProviders t !! k), (tracerProvidersCounter t !! k);
      try done; lia.
  - rewrite Hp in *.
    destruct (tracerProvidersCounter t !! k) as [c|] eqn:Hc; [done|].
    rewrite (counterAt_None _ _ Hc), int_wrap_small; lia.
  - destruct (tracerProviders t !! k), (tracerProvidersCounter t !! k);
      try done; lia.
Qed.

Lemma recorded_cleanupTracerProvider (n : Z) key sdk (t : tracerProviderCache) :
  n < 2 ^ 63 → recorded n t →
  recorded n (snd (cleanupTracerProvider key sdk t)).
Proof.
  intros Hn Hb k. pose proof (Hb k) as Hk. pose proof (Hb key) as Hkey.
  unfold cleanupTracerProvider.
  destruct (tracerProviders t !! key) as [tp|] eqn:Hp;
    destruct (tracerProvidersCounter t !! key) as [c|] eqn:Hc; try done.
  - rewrite (counterAt_Some _ _ _ Hc).
    destruct (Z.ltb_spec 0 c).
    + rewrite counterAt_insert, decide_True by done.
      rewrite int_wrap_small by lia.
      destruct (Z.eqb_spec (c - 1) 0); [destruct (shutdownErr sdk)|]; simpl;
        destruct (decide (key = k)) as [->|Hne];
        rewrite ?lookup_delete_eq, ?lookup_delete_ne,
                ?lookup_insert_eq, ?lookup_insert_ne by done; try done;
        rewrite Hp; lia.
    + rewrite (counterAt_Some _ _ _ Hc).
      destruct (Z.eqb_spec c 0); [destruct (shutdownErr sdk)|]; simpl;
        destruct (decide (key = k)) as [->|Hne];
        rewrite ?lookup_delete_eq, ?lookup_delete_ne by done; try done.
  - rewrite (counterAt_None _ _ Hc). simpl.
    rewrite (counterAt_None _ _ Hc). simpl.
    destruct (decide (key = k)) as [->|Hne];
      rewrite ?lookup_delete_eq, ?lookup_delete_ne by done; done.
Qed.

Lemma recorded_mono (n m : Z) (t : tracerProviderCache) :
  n ≤ m → recorded n t → recorded m t.
Proof.
  intros Hnm Hb k. specialize (Hb k).
  destruct (tracerProviders t !! k), (tracerProvidersCounter t !! k); try done; lia.
Qed.

Lemma recorded_run (ops : list op) (n : Z) (t : tracerProviderCache) :
  0 ≤ n → n + Z.of_nat (length ops) < 2 ^ 63 →
  recorded n t → recorded (n + Z.of_nat (length ops)) (run ops t).
Proof.
  revert n t. induction ops as [|o ops IH]; intros n t Hn Hlen Hb; simpl.
  - by rewrite Z.add_0_r.
  - simpl length in Hlen.
    replace (n + Z.of_nat (S (length ops))) with (n + 1 + Z.of_nat (length ops)) in * by lia.
    apply IH; [lia|lia|].
    destruct o as [key opts|key sdk]; simpl.
    + apply recorded_getTracerProvider; [lia|done].
    + apply recorded_mono with n; [lia|].
      apply recorded_cleanupTracerProvider; [lia|done].
Qed.

(** X2. In every run from the empty cache of fewer than 2^63 calls, also
    when shutdowns fail: a key is in the providers map exactly when it is in
    the counter map, no counter is negative, and a key with a counter of at
    least 1 has its entry. *)
Theorem counters_and_entries_in_every_run (ops : list op) :
  Z.of_nat (length ops) < 2 ^ 63 →
  ∀ key : string,
    let t := run ops emptyCache in
    (is_Some (tracerProviders t !! key)
     ↔ is_Some (tracerProvidersCounter t !! key))
    ∧ 0 ≤ counterAt (tracerProvidersCounter t) key
    ∧ (1 ≤ counterAt (tracerProvidersCounter t) key →
       is_Some (tracerProviders t !! key)).
Proof.
  intros Hlen key t.
  pose proof (recorded_run ops 0 emptyCache ltac:(lia) ltac:(lia)
                recorded_emptyCache key) as H.
  fold t in H. unfold counterAt.
  destruct (tracerProviders t !! key), (tracerProvidersCounter t !! key);
    simpl; try done; (split; [split; by eauto|]); split; try lia; by eauto.
Qed.

Lemma counters_and_entries_in_every_run_witness :
  0 ≤ counterAt (tracerProvidersCounter
                   (run [Acquire "a" []; Release "a" shutdownFails;
                         Release "a" shutdownFails] emptyCache)) "a".
Proof.
  apply (counters_and_entries_in_every_run
           [Acquire "a" []; Release "a" shutdownFails; Release "a" shutdownFails]).
  vm_compute. reflexivity.
Defined.

(** X3. A call on one key leaves the entry and the counter of every other
    key as they were. *)
Theorem step_leaves_other_keys (o : op) (t : tracerProviderCache) (key : string) :
  opKey o ≠ key →
  tracerProviders (step t o) !! key = tracerProviders t !! key
  ∧ tracerProvidersCounter (step t o) !! key = tracerProvidersCounter t !! key.
Proof.
  intros Hne. destruct o as [k opts|k sdk]; simpl in *.
  - unfold getTracerProvider.
    destruct (tracerProviders t !! k); simpl;
      by rewrite ?lookup_insert_ne by done.
  - unfold cleanupTracerProvider.
    destruct (0 <? counterAt (tracerProvidersCounter t) k);
      (destruct (counterAt _ k =? 0);
       [destruct (tracerProviders t !! k); [destruct (shutdownErr sdk)|]|]);
      simpl; by rewrite ?lookup_delete_ne, ?lookup_insert_ne by done.
Qed.

Lemma step_leaves_other_keys_witness :
  tracerProviders (step (snd (getTracerProvider "a" [] emptyCache))
                     (Release "b" allFine)) !! "a"
  = tracerProviders (snd (getTracerProvider "a" [] emptyCache)) !! "a".
Proof.
  apply (step_leaves_other_keys (Release "b" allFine)). discriminate.
Defined.

(** ** Acquire and release as inverse operations *)

Lemma getTracerProvider_present key opts (t : tracerProviderCache) tp c :
  tracerProviders t !! key = Some tp →
  tracerProvidersCounter t !! key = Some c → - 2 ^ 63 ≤ c + 1 < 2 ^ 63 →
  getTracerProvider key opts t
  = (tp, {| tracerProviders := tracerProviders t;
            tracerProvidersCounter := <[key := c + 1]> (tracerProvidersCounter t);
            allocated := allocated t; calls := calls t |}).
Proof.
  intros Hp Hc Hr. unfold getTracerProvider.
  by rewrite Hp, (counterAt_Some _ _ _ Hc), int_wrap_small.
Qed.

Lemma getTracerProvider_absent key opts (t : tracerProviderCache) :
  Spec.absent key t →
  getTracerProvider key opts t
  = ({| tp_addr := allocated t; tp_opts := opts |},
     {| tracerProviders :=
          <[key := {| tp_addr := allocated t; tp_opts := opts |}]>
            (tracerProviders t);
        tracerProvidersCounter := <[key := 1]> (tracerProvidersCounter t);
        allocated := S (allocated t);
        calls := calls t
                 ++ [CallNewTracerProvider
                       {| tp_addr := allocated t; tp_opts := opts |}] |}).
Proof.
  intros [Hp Hc]. unfold getTracerProvider.
  by rewrite Hp, (counterAt_None _ _ Hc).
Qed.

Lemma cleanupTracerProvider_last key sdk (t : tracerProviderCache) tp :
  tracerProviders t !! key = Some tp →
  tracerProvidersCounter t !! key = Some 1 →
  shutdownErr sdk = None →
  cleanupTracerProvider key sdk t
  = (None, {| tracerProviders := delete key (tracerProviders t);
              tracerProvidersCounter := delete key (tracerProvidersCounter t);
              allocated := allocated t;
              calls := calls t ++ teardownCalls tp sdk |}).
Proof.
  intros Hp Hc Hsd. unfold cleanupTracerProvider, teardownCalls.
  rewrite (counterAt_Some _ _ _ Hc), Hp, Hsd. simpl.
  rewrite counterAt_insert, decide_True by done. simpl.
  by rewrite delete_insert_eq.
Qed.

Lemma run_app (l1 l2 : list op) (t : tracerProviderCache) :
  run (l1 ++ l2) t = run l2 (run l1 t).
Proof. apply fold_left_app. Qed.

Lemma run_cons (o : op) (l : list op) (t : tracerProviderCache) :
  run (o :: l) t = run l (step t o).
Proof. reflexivity. Qed.

(** Further acquires of a live key only count. *)
Lemma run_acquires_present (optss : list (list TracerProviderOption)) key
    (t : tracerProviderCache) tp c :
  tracerProviders t !! key = Some tp →
  tracerProvidersCounter t !! key = Some c →
  0 ≤ c → c + Z.of_nat (length optss) < 2 ^ 63 →
  run (Acquire key <$> optss) t
  = {| tracerProviders := tracerProviders t;
       tracerProvidersCounter :=
         <[key := c + Z.of_nat (length optss)]> (tracerProvidersCounter t);
       allocated := allocated t; calls := calls t |}.
Proof.
  revert t c. induction optss as [|opts optss IH]; intros t c Hp Hc H0 Hlen.
  - simpl. rewrite Z.add_0_r, insert_id by done. by destruct t.
  - rewrite fmap_cons, run_cons. unfold step.
    simpl length in *.
    rewrite (getTracerProvider_present _ _ _ _ _ Hp Hc) by lia.
    cbn [snd]. rewrite (IH _ (c + 1)); cbn [tracerProviders tracerProvidersCounter];
      [|done|by rewrite lookup_insert_eq|lia|lia].
    rewrite insert_insert_eq. cbn [allocated calls]. do 2 f_equal. lia.
Qed.

(** Releases that leave a holder only count down. *)
Lemma run_releases_partial (sdks : list teardown) key
    (t : tracerProviderCache) tp c :
  tracerProviders t !! key = Some tp →
  tracerProvidersCounter t !! key = Some c →
  Z.of_nat (length sdks) < c → c < 2 ^ 63 →
  run (Release key <$> sdks) t
  = {| tracerProviders := tracerProviders t;
       tracerProvidersCounter :=
         <[key := c - Z.of_nat (length sdks)]> (tracerProvidersCounter t);
       allocated := allocated t; calls := calls t |}.
Proof.
  revert t c. induction sdks as [|sdk sdks IH]; intros t c Hp Hc Hlen Hmax.
  - simpl. rewrite Z.sub_0_r, insert_id by done. by destruct t.
  - rewrite fmap_cons, run_cons. unfold step.
    simpl length in *.
    rewrite (cleanupTracerProvider_not_last _ _ _ _ Hc) by lia.
    cbn [snd]. rewrite (IH _ (c - 1)); cbn [tracerProviders tracerProvidersCounter];
      [|done|by rewrite lookup_insert_eq|lia|lia].
    rewrite insert_insert_eq. cbn [allocated calls]. do 2 f_equal. lia.
Qed.

(** X4. [getTracerProvider] followed by [cleanupTracerProvider] of the same
    key puts both maps back: for a key in neither map when the [Shutdown]
    succeeds, and for a key with a counter from 1 to 2^63 - 2 whatever the
    SDK would return. *)
Theorem acquire_then_release_restores_maps key opts sdk (t : tracerProviderCache) :
  (Spec.absent key t ∧ shutdownErr sdk = None)
  ∨ (∃ tp c, tracerProviders t !! key = Some tp
       ∧ tracerProvidersCounter t !! key = Some c ∧ 1 ≤ c < 2 ^ 63 - 1) →
  let r := cleanupTracerProvider key sdk (snd (getTracerProvider key opts t)) in
  fst r = None
  ∧ tracerProviders (snd r) = tracerProviders t
  ∧ tracerProvidersCounter (snd r) = tracerProvidersCounter t.
Proof.
  intros [[Habs Hsd]|(tp & c & Hp & Hc & Hr)] r; subst r.
  - rewrite (getTracerProvider_absent _ _ _ Habs). cbn [snd].
    erewrite cleanupTracerProvider_last;
      [|cbn [tracerProviders]; apply lookup_insert_eq
       |cbn [tracerProvidersCounter]; apply lookup_insert_eq|done].
    destruct Habs as [Hp Hc]. cbn [fst snd tracerProviders tracerProvidersCounter].
    by rewrite !delete_insert_id.
  - rewrite (getTracerProvider_present _ _ _ _ _ Hp Hc) by lia. cbn [snd].
    erewrite (cleanupTracerProvider_not_last _ _ _ (c + 1));
      [|cbn [tracerProvidersCounter]; apply lookup_insert_eq|lia].
    cbn [fst snd tracerProviders tracerProvidersCounter].
    rewrite insert_insert_eq. replace (c + 1 - 1) with c by lia.
    by rewrite insert_id.
Qed.

Lemma acquire_then_release_restores_maps_witness :
  tracerProviders
    (snd (cleanupTracerProvider "a" bothFail
            (snd (getTracerProvider "a" []
                    (snd (getTracerProvider "a" [] emptyCache))))))
  = tracerProviders (snd (getTracerProvider "a" [] emptyCache)).
Proof.
  apply (acquire_then_release_restores_maps "a" [] bothFail
           (snd (getTracerProvider "a" [] emptyCache))).
  right. exists {| tp_addr := 0; tp_opts := [] |}, 1.
  split; [vm_compute; reflexivity|]. split; [vm_compute; reflexivity|]. lia.
Defined.

(** X5. A key in neither map is acquired by one call and then by any number
    of further calls, and released as many times: one provider is created,
    by the first acquire; as long as a release is outstanding the provider
    stays cached and nothing is flushed or shut down; the last release, if
    its [Shutdown] succeeds, tears it down once and puts both maps back. *)
Theorem acquires_then_as_many_releases key opts
    (more : list (list TracerProviderOption)) (sdks : list teardown)
    (sdk : teardown) (t : tracerProviderCache) :
  Spec.absent key t → length sdks = length more →
  Z.of_nat (length more) + 1 < 2 ^ 63 → shutdownErr sdk = None →
  let tp := {| tp_addr := allocated t; tp_opts := opts |} in
  let held := run (Acquire key opts :: (Acquire key <$> more)
                   ++ (Release key <$> sdks)) t in
  let released := step held (Release key sdk) in
  tracerProviders held !! key = Some tp
  ∧ tracerProvidersCounter held !! key = Some 1
  ∧ calls held = calls t ++ [CallNewTracerProvider tp]
  ∧ tracerProviders released = tracerProviders t
  ∧ tracerProvidersCounter released = tracerProvidersCounter t
  ∧ calls released
    = calls t ++ [CallNewTracerProvider tp] ++ teardownCalls tp sdk.
Proof.
  intros Habs Hlen Hmax Hsd tp held released.
  assert (Hheld : held
            = {| tracerProviders := <[key := tp]> (tracerProviders t);
                 tracerProvidersCounter := <[key := 1]> (tracerProvidersCounter t);
                 allocated := S (allocated t);
                 calls := calls t ++ [CallNewTracerProvider tp] |}).
  { subst held. rewrite run_cons.
    change (step t (Acquire key opts)) with (snd (getTracerProvider key opts t)).
    rewrite (getTracerProvider_absent _ _ _ Habs). cbn [snd]. fold tp.
    rewrite run_app.
    rewrite (run_acquires_present more key _ tp 1);
      cbn [tracerProviders tracerProvidersCounter];
      [|by rewrite lookup_insert_eq..|lia|lia].
    rewrite insert_insert_eq. cbn [allocated calls].
    rewrite (run_releases_partial sdks key _ tp (1 + Z.of_nat (length more)));
      cbn [tracerProviders tracerProvidersCounter];
      [|by rewrite lookup_insert_eq..|lia|lia].
    rewrite insert_insert_eq. cbn [allocated calls].
    do 2 f_equal. lia. }
  subst released. rewrite Hheld. cbn [tracerProviders tracerProvidersCounter calls].
  rewrite !lookup_insert_eq. split; [done|]. split; [done|]. split; [done|].
  unfold step.
  erewrite cleanupTracerProvider_last;
    [|cbn [tracerProviders]; apply lookup_insert_eq
     |cbn [tracerProvidersCounter]; apply lookup_insert_eq|done].
  destruct Habs as [Hp Hc]. cbn [snd tracerProviders tracerProvidersCounter calls].
  rewrite !delete_insert_id by done. by rewrite <- app_assoc.
Qed.

Lemma acquires_then_as_many_releases_witness :
  tracerProviders
    (step (run (Acquire "a" [] :: (Acquire "a" <$> [[]; []])
                ++ (Release "a" <$> [shutdownFails; bothFail])) emptyCache)
       (Release "a" flushFails))
  = tracerProviders emptyCache.
Proof.
  apply (acquires_then_as_many_releases "a" [] [[]; []]
           [shutdownFails; bothFail] flushFails emptyCache).
  - split; reflexivity.
  - reflexivity.
  - vm_compute. reflexivity.
  - reflexivity.
Defined.

(** ** What a release may and may not do *)

(** X6. A release of a key that other holders still hold (counter from 2
    to 2^63 - 1) returns nil, calls neither [ForceFlush] nor [Shutdown] nor
    the logger, keeps the provider and takes exactly one off the counter,
    whatever the SDK would return. *)
Theorem release_with_other_holders_only_counts key sdk
    (t : tracerProviderCache) tp c :
  tracerProviders t !! key = Some tp →
  tracerProvidersCounter t !! key = Some c → 2 ≤ c < 2 ^ 63 →
  let r := cleanupTracerProvider key sdk t in
  fst r = None
  ∧ calls (snd r) = calls t
  ∧ tracerProviders (snd r) = tracerProviders t
  ∧ counterAt (tracerProvidersCounter (snd r)) key = c - 1
  ∧ allocated (snd r) = allocated t.
Proof.
  intros Hp Hc Hr r. subst r.
  rewrite (cleanupTracerProvider_not_last _ _ _ _ Hc Hr).
  cbn [fst snd calls tracerProviders tracerProvidersCounter allocated].
  by rewrite counterAt_insert, decide_True.
Qed.

Lemma release_with_other_holders_only_counts_witness :
  calls (snd (cleanupTracerProvider "a" bothFail
                (run [Acquire "a" []; Acquire "a" []] emptyCache)))
  = calls (run [Acquire "a" []; Acquire "a" []] emptyCache).
Proof.
  apply (release_with_other_holders_only_counts "a" bothFail
           (run [Acquire "a" []; Acquire "a" []] emptyCache)
           {| tp_addr := 0; tp_opts := [] |} 2).
  - vm_compute. reflexivity.
  - vm_compute. reflexivity.
  - lia.
Defined.

(** X7. A release of a key that is in neither map returns nil and leaves
    the whole cache as it is: no counter is stored, nothing is called. *)
Theorem release_of_unknown_key_is_noop key sdk (t : tracerProviderCache) :
  tracerProviders t !! key = None →
  tracerProvidersCounter t !! key = None →
  cleanupTracerProvider key sdk t = (None, t).
Proof.
  intros Hp Hc. unfold cleanupTracerProvider.
  rewrite (counterAt_None _ _ Hc). simpl.
  rewrite (counterAt_None _ _ Hc), Hp. simpl.
  rewrite !delete_id by done. by destruct t.
Qed.

Lemma release_of_unknown_key_is_noop_witness :
  cleanupTracerProvider "b" bothFail (snd (getTracerProvider "a" [] emptyCache))
  = (None, snd (getTracerProvider "a" [] emptyCache)).
Proof.
  apply release_of_unknown_key_is_noop; vm_compute; reflexivity.
Defined.

(** The effect of one [cleanupTracerProvider] on the providers and the
    calls: nothing, or the teardown of the provider of the key. *)
Lemma cleanupTracerProvider_effect key sdk (t : tracerProviderCache) :
  allocated (snd (cleanupTracerProvider key sdk t)) = allocated t
  ∧ ((tracerProviders (snd (cleanupTracerProvider key sdk t)) = tracerProviders t
      ∧ calls (snd (cleanupTracerProvider key sdk t)) = calls t)
     ∨ ∃ tp, tracerProviders t !! key = Some tp
         ∧ calls (snd (cleanupTracerProvider key sdk t))
           = calls t ++ teardownCalls tp sdk
         ∧ (shutdownErr sdk = None →
            tracerProviders (snd (cleanupTracerProvider key sdk t))
            = delete key (tracerProviders t))).
Proof.
  unfold cleanupTracerProvider.
  destruct (counterAt _ key =? 0); [|by split; [|left]].
  destruct (tracerProviders t !! key) as [tp|] eqn:Hp.
  - destruct (shutdownErr sdk) eqn:Hsd; simpl; (split; [done|]); right;
      exists tp; by rewrite ?Hsd.
  - simpl. split; [done|]. left. by rewrite delete_id.
Qed.

Lemma shutdownAddrs_app (a b : list call) :
  shutdownAddrs (a ++ b) = shutdownAddrs a ++ shutdownAddrs b.
Proof. apply omap_app. Qed.

Lemma shutdownAddrs_teardownCalls tp sdk :
  shutdownAddrs (teardownCalls tp sdk) = [tp_addr tp].
Proof. unfold teardownCalls. by destruct (forceFlushErr sdk). Qed.

Lemma elem_of_shutdownAddrs (cs : list call) (a : nat) :
  a ∈ shutdownAddrs cs ↔ ∃ tp, CallShutdown tp ∈ cs ∧ tp_addr tp = a.
Proof.
  unfold shutdownAddrs. rewrite list_elem_of_omap. split.
  - intros (c & Hc & Ha). destruct c; try done. injection Ha as <-. eauto.
  - intros (tp & Hc & <-). by exists (CallShutdown tp).
Qed.

Lemma CallShutdown_teardownCalls tp tp' sdk :
  CallShutdown tp' ∈ teardownCalls tp sdk → tp' = tp.
Proof.
  unfold teardownCalls. destruct (forceFlushErr sdk); simpl;
    rewrite ?elem_of_cons, elem_of_nil; intros H;
    repeat (destruct H as [H|H]; try discriminate H); try done;
    by injection H.
Qed.


Lemma tidy_emptyCache : tidy emptyCache.
Proof.
  split; [|split; [|split]]; simpl.
  - intros key tp H. by rewrite lookup_empty in H.
  - by intros a ?%elem_of_nil.
  - constructor.
  - by intros tp ?%elem_of_nil.
Qed.

Lemma tidy_getTracerProvider h key opts (t : tracerProviderCache) :
  owned h t → tidy t → tidy (snd (getTracerProvider key opts t)).
Proof.
  intros (Hlt & Hinj & Hin) (Hmap & Hbelow & Hnodup & Hcreated).
  unfold getTracerProvider.
  destruct (tracerProviders t !! key) as [val|] eqn:Hp; [done|].
  unfold tidy. cbn [snd tracerProviders calls allocated].
  rewrite shutdownAddrs_app, app_nil_r.
  split; [|split; [|split]].
  - intros k p. destruct (decide (key = k)) as [->|Hne].
    + rewrite lookup_insert_eq. intros [= <-].
      split; [apply elem_of_app; right; apply list_elem_of_here|].
      intros Ha. apply Hbelow in Ha. simpl in Ha. lia.
    + rewrite lookup_insert_ne by done. intros Hk.
      destruct (Hmap _ _ Hk). split; [apply elem_of_app; by left|done].
  - intros a Ha. apply Hbelow in Ha. lia.
  - done.
  - intros tp [Htp|Htp%list_elem_of_singleton]%elem_of_app; [|done].
    apply elem_of_app. left. by apply Hcreated.
Qed.

Lemma tidy_cleanupTracerProvider h key sdk (t : tracerProviderCache) :
  shutdownErr sdk = None → owned h t → tidy t →
  tidy (snd (cleanupTracerProvider key sdk t)).
Proof.
  intros Hsd (Hlt & Hinj & Hin) (Hmap & Hbelow & Hnodup & Hcreated).
  destruct (cleanupTracerProvider_effect key sdk t)
    as [Halloc [[Hsame Hcalls]|(tp & Hp & Hcalls & Hdel)]];
    unfold tidy; rewrite Halloc, Hcalls.
  - by rewrite Hsame.
  - rewrite (Hdel Hsd), shutdownAddrs_app, shutdownAddrs_teardownCalls.
    destruct (Hmap _ _ Hp) as [Hnew Hfresh].
    split; [|split; [|split]].
    + intros k p [Hne Hk]%lookup_delete_Some.
      destruct (Hmap _ _ Hk) as [Hnewp Hfreshp].
      split; [apply elem_of_app; by left|].
      intros [Ha|Ha%list_elem_of_singleton]%elem_of_app; [done|].
      apply Hne. symmetry. eapply Hinj; eauto.
    + intros a [Ha|Ha%list_elem_of_singleton]%elem_of_app; [by apply Hbelow|].
      subst a. eapply Hlt, Hin, Hp.
    + apply NoDup_app. split; [done|]. split; [|apply NoDup_singleton].
      intros a Ha ->%list_elem_of_singleton. by apply Hfresh.
    + intros tp' [Htp|Htp%CallShutdown_teardownCalls]%elem_of_app.
      * apply elem_of_app. left. by apply Hcreated.
      * subst tp'. apply elem_of_app. by left.
Qed.

Lemma tidy_run (ops : list op) h (t : tracerProviderCache) :
  Forall shutdownSucceeds ops → owned h t → tidy t → tidy (run ops t).
Proof.
  revert h t. induction ops as [|o ops IH]; intros h t Hok Ho Ht; [done|].
  inversion Hok as [|? ? Hok1 Hok2]; subst. rewrite run_cons.
  destruct o as [key opts|key sdk]; simpl step.
  - eapply IH; [done|by apply owned_getTracerProvider
                |by eapply tidy_getTracerProvider].
  - eapply IH; [done|by apply owned_cleanupTracerProvider
                |by eapply tidy_cleanupTracerProvider].
Qed.

(** X8. In a run from the empty cache in which no [Shutdown] fails, no
    provider is shut down twice, every provider that is shut down was
    created by the cache before, and no provider still in the cache has been
    shut down. *)
Theorem shutdown_once_and_only_of_created (ops : list op) :
  Forall shutdownSucceeds ops →
  let t := run ops emptyCache in
  NoDup (shutdownAddrs (calls t))
  ∧ (∀ tp, CallShutdown tp ∈ calls t → CallNewTracerProvider tp ∈ calls t)
  ∧ (∀ key tp, tracerProviders t !! key = Some tp →
       ∀ tp', CallShutdown tp' ∈ calls t → tp_addr tp' ≠ tp_addr tp).
Proof.
  intros Hok t.
  destruct (tidy_run ops [] emptyCache Hok owned_emptyCache tidy_emptyCache)
    as (Hmap & _ & Hnodup & Hcreated).
  split; [done|]. split; [done|].
  intros key tp Hp tp' Hsd Heq. destruct (Hmap _ _ Hp) as [_ Hfresh].
  apply Hfresh, elem_of_shutdownAddrs. eauto.
Qed.

Lemma shutdown_once_and_only_of_created_witness :
  NoDup (shutdownAddrs
           (calls (run [Acquire "a" []; Release "a" flushFails;
                        Acquire "a" []; Release "a" allFine] emptyCache))).
Proof.
  apply (shutdown_once_and_only_of_created
           [Acquire "a" []; Release "a" flushFails;
            Acquire "a" []; Release "a" allFine]).
  repeat constructor.
Defined.

(** X9. In every run from the empty cache, also when shutdowns fail, two
    keys of the cache never hold a provider at the same address, and every
    cached provider lies below the allocator of the SDK. *)
Theorem cached_providers_are_distinct (ops : list op) :
  let t := run ops emptyCache in
  (∀ k1 p1 k2 p2,
     tracerProviders t !! k1 = Some p1 → tracerProviders t !! k2 = Some p2 →
     tp_addr p1 = tp_addr p2 → k1 = k2)
  ∧ (∀ key tp, tracerProviders t !! key = Some tp →
       (tp_addr tp < allocated t)%nat).
Proof.
  intros t.
  destruct (owned_run ops [] emptyCache owned_emptyCache) as (Hlt & Hinj & Hin).
  fold t in Hlt, Hinj, Hin. split.
  - intros k1 p1 k2 p2 H1 H2. eapply Hinj; eauto.
  - intros key tp Hp. eapply Hlt; eauto.
Qed.

Lemma cached_providers_are_distinct_witness :
  (tp_addr {| tp_addr := 1; tp_opts := [] |}
   < allocated (run [Acquire "a" []; Acquire "b" []] emptyCache))%nat.
Proof.
  destruct (cached_providers_are_distinct [Acquire "a" []; Acquire "b" []])
    as [_ Hlt].
  apply (Hlt "b"). vm_compute. reflexivity.
Defined.

(** ** Setup: errors, environment and effect on the cache *)

(** X10. When [newOpenTelemetryWrapper] returns an error, whichever it is,
    the cache is the one it was called on and the returned wrapper has no
    tracer, no propagators and an empty key. *)
Theorem failed_setup_has_no_effect (env : collaborators)
    (serviceName propagators' tracerName spanName : string)
    (cfg : tracerExporterConfig) (t : tracerProviderCache) :
  let r := newOpenTelemetryWrapper env serviceName propagators' tracerName
             spanName cfg t in
  snd (fst r) ≠ None →
  snd r = t
  ∧ tracer (fst (fst r)) = None
  ∧ propagators (fst (fst r)) = None
  ∧ tracerProviderKey (fst (fst r)) = "".
Proof.
  intros r. subst r. rewrite newOpenTelemetryWrapper_paths. cbv zeta.
  destruct (newResource _ _ _ _); [|done].
  destruct (decide (exporterTracesProtocol (resolvedConfig env cfg) = ""));
    [done|].
  destruct (getTracerExporter _ _); [|done].
  by destruct (decide (resolvedPropagators env propagators' = "")).
Qed.

Lemma failed_setup_has_no_effect_witness :
  snd (newOpenTelemetryWrapper plainProcess "" "" "my-tracer" "my-span"
         grpcInsecure (snd (getTracerProvider "a" [] emptyCache)))
  = snd (getTracerProvider "a" [] emptyCache).
Proof.
  apply (failed_setup_has_no_effect plainProcess "" "" "my-tracer" "my-span"
           grpcInsecure (snd (getTracerProvider "a" [] emptyCache))).
  vm_compute. discriminate.
Defined.

Lemma getTracerProvider_frame key opts (t : tracerProviderCache) other :
  other ≠ key →
  tracerProviders (snd (getTracerProvider key opts t)) !! other
  = tracerProviders t !! other
  ∧ tracerProvidersCounter (snd (getTracerProvider key opts t)) !! other
    = tracerProvidersCounter t !! other.
Proof.
  intros Hne. unfold getTracerProvider.
  destruct (tracerProviders t !! key); simpl;
    by rewrite ?lookup_insert_ne by done.
Qed.

(** X11. When [newOpenTelemetryWrapper] returns no error, the wrapper's key
    is the one made from the defaulted service name, the tracer name and the
    resolved exporter configuration; the cache holds under that key the
    provider of the returned tracer; the counter of the key went up by one
    (below 2^63 - 1) and no other key changed. *)
Theorem successful_setup_acquires_once (env : collaborators)
    (serviceName propagators' tracerName spanName : string)
    (cfg : tracerExporterConfig) (t : tracerProviderCache) :
  let r := newOpenTelemetryWrapper env serviceName propagators' tracerName
             spanName cfg t in
  let key := tracerProviderKeyOf (resolvedServiceName serviceName) tracerName
               (resolvedConfig env cfg) in
  snd (fst r) = None →
  0 ≤ counterAt (tracerProvidersCounter t) key < 2 ^ 63 - 1 →
  tracerProviderKey (fst (fst r)) = key
  ∧ (∃ tp, tracer (fst (fst r))
           = Some {| tracer_provider := tp; tracer_name := tracerName |}
         ∧ tracerProviders (snd r) !! key = Some tp)
  ∧ counterAt (tracerProvidersCounter (snd r)) key
    = counterAt (tracerProvidersCounter t) key + 1
  ∧ propagators (fst (fst r))
    = Some (getPropagators (resolvedPropagators env propagators'))
  ∧ ∀ other, other ≠ key →
      tracerProviders (snd r) !! other = tracerProviders t !! other
      ∧ tracerProvidersCounter (snd r) !! other
        = tracerProvidersCounter t !! other.
Proof.
  intros r key. subst r. rewrite newOpenTelemetryWrapper_paths. cbv zeta.
  destruct (newResource _ _ _ _) as [res|]; [|done].
  destruct (decide (exporterTracesProtocol (resolvedConfig env cfg) = ""));
    [done|].
  destruct (getTracerExporter _ _) as [e|]; [|done].
  destruct (decide (resolvedPropagators env propagators' = "")); [done|].
  fold key. cbn [fst snd tracer tracerProviderKey propagators].
  intros _ Hc. split; [done|]. split; [|split; [|split; [done|]]].
  - eexists. split; [done|]. apply getTracerProvider_entry.
  - unfold getTracerProvider.
    destruct (tracerProviders t !! key); cbn [snd tracerProvidersCounter];
      rewrite counterAt_insert, decide_True, int_wrap_small by (done || lia);
      done.
  - intros other Hne. by apply getTracerProvider_frame.
Qed.

Lemma successful_setup_acquires_once_witness :
  counterAt
    (tracerProvidersCounter
       (snd (newOpenTelemetryWrapper plainProcess "" "baggage" "my-tracer" ""
               grpcInsecure emptyCache)))
    "caddyService-my-tracer-grpc-true--"
  = 0 + 1.
Proof.
  apply (successful_setup_acquires_once plainProcess "" "baggage" "my-tracer"
           "" grpcInsecure emptyCache).
  - vm_compute. reflexivity.
  - vm_compute. split; [discriminate|reflexivity].
Defined.

Lemma Getenv_Setenv_ne (name value n : string) (env : collaborators) :
  n ≠ name → Getenv (Setenv name value env) n = Getenv env n.
Proof. intros Hne. simpl. by rewrite decide_False. Qed.

Lemma getTracerExporter_Setenv (name value : string) (env : collaborators)
    (cfg : tracerExporterConfig) :
  name ≠ envOtelExporterOtlpCertificate →
  name ≠ envOtelExporterOtlpTracesCertificate →
  getTracerExporter (Setenv name value env) cfg = getTracerExporter env cfg.
Proof.
  intros H1 H2. unfold getTracerExporter, isCertificateHeaderSet.
  by rewrite !Getenv_Setenv_ne by done.
Qed.

(** X12. Explicit values win over the environment: with a protocol and a
    propagators string given in the configuration, setting
    [OTEL_PROPAGATORS], [OTEL_EXPORTER_OTLP_PROTOCOL] or
    [OTEL_EXPORTER_OTLP_TRACES_PROTOCOL] to any value changes nothing in
    what [newOpenTelemetryWrapper] returns and does. *)
Theorem explicit_values_win_over_environment (env : collaborators)
    (name value serviceName propagators' tracerName spanName : string)
    (cfg : tracerExporterConfig) (t : tracerProviderCache) :
  exporterTracesProtocol cfg ≠ "" → propagators' ≠ "" →
  name ∈ [envOtelPropagators; envOtelExporterOtlpProtocol;
          envOtelExporterOtlpTracesProtocol] →
  newOpenTelemetryWrapper (Setenv name value env) serviceName propagators'
    tracerName spanName cfg t
  = newOpenTelemetryWrapper env serviceName propagators' tracerName spanName
      cfg t.
Proof.
  intros Hproto Hprop Hname.
  assert (Hcfg : resolvedConfig (Setenv name value env) cfg = resolvedConfig env cfg).
  { unfold resolvedConfig. by rewrite !decide_False. }
  assert (Hps : resolvedPropagators (Setenv name value env) propagators'
                = resolvedPropagators env propagators').
  { unfold resolvedPropagators. by rewrite !decide_False. }
  assert (Hexp : getTracerExporter (Setenv name value env) (resolvedConfig env cfg)
                 = getTracerExporter env (resolvedConfig env cfg)).
  { apply getTracerExporter_Setenv;
      intros ->; repeat (apply elem_of_cons in Hname as [Hname|Hname];
                         [discriminate Hname|]); by apply elem_of_nil in Hname. }
  rewrite !newOpenTelemetryWrapper_paths, Hcfg, Hps, Hexp. reflexivity.
Qed.

Lemma explicit_values_win_over_environment_witness :
  newOpenTelemetryWrapper
    (Setenv "OTEL_EXPORTER_OTLP_PROTOCOL" "http/protobuf" plainProcess)
    "" "baggage" "my-tracer" "" grpcInsecure emptyCache
  = newOpenTelemetryWrapper plainProcess "" "baggage" "my-tracer" ""
      grpcInsecure emptyCache.
Proof.
  apply explicit_values_win_over_environment.
  - discriminate.
  - discriminate.
  - apply list_elem_of_further, list_elem_of_here.
Defined.

(** X13. Leaving a value empty is the same as giving the value of the
    environment: empty propagators stand for [OTEL_PROPAGATORS], an empty
    protocol stands for [OTEL_EXPORTER_OTLP_TRACES_PROTOCOL] when that is
    set and for [OTEL_EXPORTER_OTLP_PROTOCOL] otherwise. *)
Theorem empty_values_fall_back_to_environment (env : collaborators)
    (serviceName propagators' tracerName spanName : string)
    (cfg : tracerExporterConfig) (t : tracerProviderCache) :
  newOpenTelemetryWrapper env serviceName "" tracerName spanName cfg t
  = newOpenTelemetryWrapper env serviceName (Getenv env "OTEL_PROPAGATORS")
      tracerName spanName cfg t
  ∧ newOpenTelemetryWrapper env serviceName propagators' tracerName spanName
      (withProtocol "" cfg) t
    = newOpenTelemetryWrapper env serviceName propagators' tracerName spanName
        (withProtocol
           (if decide (Getenv env "OTEL_EXPORTER_OTLP_TRACES_PROTOCOL" = "")
            then Getenv env "OTEL_EXPORTER_OTLP_PROTOCOL"
            else Getenv env "OTEL_EXPORTER_OTLP_TRACES_PROTOCOL") cfg) t.
Proof.
  split.
  - rewrite !newOpenTelemetryWrapper_paths.
    assert (Hps : resolvedPropagators env (Getenv env "OTEL_PROPAGATORS")
                  = resolvedPropagators env "").
    { unfold resolvedPropagators, envOtelPropagators. by case_decide. }
    by rewrite Hps.
  - rewrite !newOpenTelemetryWrapper_paths.
    assert (Hcfg : resolvedConfig env
                     (withProtocol
                        (if decide (Getenv env "OTEL_EXPORTER_OTLP_TRACES_PROTOCOL" = "")
                         then Getenv env "OTEL_EXPORTER_OTLP_PROTOCOL"
                         else Getenv env "OTEL_EXPORTER_OTLP_TRACES_PROTOCOL") cfg)
                   = resolvedConfig env (withProtocol "" cfg)).
    { unfold resolvedConfig, withProtocol, getTracesProtocolFromEnv,
        envOtelExporterOtlpTracesProtocol, envOtelExporterOtlpProtocol.
      cbn [exporterTracesProtocol exporterCertificate exporterTracesEndpoint insecure].
      by repeat case_decide. }
    by rewrite Hcfg.
Qed.

(** X14. [newOpenTelemetryWrapper] returns [ErrUnspecifiedTracesProtocol]
    exactly when the resource was created and neither the configuration nor
    one of the two protocol variables names a protocol; the propagators are
    not looked at before. *)
Theorem ErrUnspecifiedTracesProtocol_iff (env : collaborators)
    (serviceName propagators' tracerName spanName : string)
    (cfg : tracerExporterConfig) (t : tracerProviderCache) :
  snd (fst (newOpenTelemetryWrapper env serviceName propagators' tracerName
              spanName cfg t)) = Some ErrUnspecifiedTracesProtocol
  ↔ (∃ res, newResource env (resolvedServiceName serviceName) webEngineName
              (CaddyVersion env) = Ok res)
    ∧ exporterTracesProtocol cfg = ""
    ∧ Getenv env "OTEL_EXPORTER_OTLP_TRACES_PROTOCOL" = ""
    ∧ Getenv env "OTEL_EXPORTER_OTLP_PROTOCOL" = "".
Proof.
  rewrite newOpenTelemetryWrapper_paths. cbv zeta.
  assert (Hres : exporterTracesProtocol (resolvedConfig env cfg) = ""
                 ↔ exporterTracesProtocol cfg = ""
                   ∧ Getenv env "OTEL_EXPORTER_OTLP_TRACES_PROTOCOL" = ""
                   ∧ Getenv env "OTEL_EXPORTER_OTLP_PROTOCOL" = "").
  { unfold resolvedConfig, getTracesProtocolFromEnv,
      envOtelExporterOtlpTracesProtocol, envOtelExporterOtlpProtocol.
    cbn [exporterTracesProtocol]. repeat case_decide; intuition congruence. }
  destruct (newResource _ _ _ _) as [res|err].
  2: { cbn [fst snd]. split; [done|]. by intros [[? ?] _]. }
  destruct (decide (exporterTracesProtocol (resolvedConfig env cfg) = ""))
    as [Hp|Hp].
  - cbn [fst snd]. split; [|done]. intros _. split; [eauto|]. by apply Hres.
  - assert (Hno : ¬ (exporterTracesProtocol cfg = ""
                     ∧ Getenv env "OTEL_EXPORTER_OTLP_TRACES_PROTOCOL" = ""
                     ∧ Getenv env "OTEL_EXPORTER_OTLP_PROTOCOL" = ""))
      by (intros H; by apply Hp, Hres).
    destruct (getTracerExporter _ _).
    + destruct (decide (resolvedPropagators env propagators' = ""));
        cbn [fst snd]; (split; [done|]); intros [_ H]; by destruct Hno.
    + cbn [fst snd]. split; [done|]. intros [_ H]; by destruct Hno.
Qed.



Lemma errors_Is_refl (e : error) : errors_Is e e = true.
Proof. destruct e; simpl; rewrite ?bool_decide_eq_true_2 by done; done. Qed.

Lemma errors_Is_Errorf (before after : string) (e target : error) :
  errors_Is e target = true → errors_Is (Errorf before e after) target = true.
Proof. intros H. simpl. rewrite H. apply orb_true_r. Qed.

(** X16. The error of a collaborator stays in reach of [errors.Is]: when
    the resource, the certificate file or the exporter cannot be made, the
    error [newOpenTelemetryWrapper] returns wraps the error the collaborator
    gave, and its text starts with the step that failed. *)
Theorem collaborator_errors_are_wrapped (env : collaborators)
    (serviceName propagators' tracerName spanName : string)
    (cfg : tracerExporterConfig) (t : tracerProviderCache) (cause : error) :
  let r := newOpenTelemetryWrapper env serviceName propagators' tracerName
             spanName cfg t in
  (newResource env (resolvedServiceName serviceName) webEngineName
     (CaddyVersion env) = Err cause →
   snd (fst r) = Some (Errorf "creating resource error: " cause ""))
  ∧ (∀ res, newResource env (resolvedServiceName serviceName) webEngineName
              (CaddyVersion env) = Ok res →
      exporterTracesProtocol (resolvedConfig env cfg) = "grpc" →
      insecure cfg = false → exporterCertificate cfg ≠ "" →
      NewClientTLSFromFile env (exporterCertificate cfg) = Err cause →
      snd (fst r)
      = Some (Errorf "creating trace exporter error: "
                (Errorf "credentials creation error: " cause "") ""))
  ∧ (∀ res, newResource env (resolvedServiceName serviceName) webEngineName
              (CaddyVersion env) = Ok res →
      exporterTracesProtocol (resolvedConfig env cfg) ≠ "" →
      getTracerExporter env (resolvedConfig env cfg) = Err cause →
      snd (fst r) = Some (Errorf "creating trace exporter error: " cause ""))
  ∧ ∀ before before' : string,
      errors_Is (Errorf before cause "") cause = true
      ∧ errors_Is (Errorf before (Errorf before' cause "") "") cause = true.
Proof.
  intros r. subst r. rewrite newOpenTelemetryWrapper_paths. cbv zeta.
  split; [|split; [|split]].
  - by intros ->.
  - intros res -> Hgrpc Hins Hcert Hfile.
    rewrite decide_False by (rewrite Hgrpc; discriminate).
    unfold getTracerExporter at 1. rewrite decide_True by done.
    cbn [insecure exporterCertificate resolvedConfig].
    rewrite Hins, decide_True, Hfile by done. done.
  - intros res -> Hproto ->. by rewrite decide_False.
  - intros before before'. split.
    + apply errors_Is_Errorf, errors_Is_refl.
    + do 2 apply errors_Is_Errorf. apply errors_Is_refl.
Qed.

Lemma collaborator_errors_are_wrapped_witness :
  snd (fst (newOpenTelemetryWrapper noCertificateFiles "" "baggage" "my-tracer"
              "" (withCertificate "my-cert" grpcSecure) emptyCache))
  = Some (Errorf "creating trace exporter error: "
            (Errorf "credentials creation error: "
               (ErrCollaborator "open: no such file or directory") "") "").
Proof.
  destruct (collaborator_errors_are_wrapped noCertificateFiles "" "baggage"
              "my-tracer" ""
              (withCertificate "my-cert" grpcSecure) emptyCache
              (ErrCollaborator "open: no such file or directory"))
    as (_ & H & _).
  apply (H {| attributes :=
                [("telemetry.sdk.language", "go");
                 ("telemetry.sdk.name", "opentelemetry");
                 ("service.name", "caddyService");
                 ("webengine.name", "Caddy");
                 ("webengine.description", "v2.5.0")] |}).
  - vm_compute. reflexivity.
  - vm_compute. reflexivity.
  - reflexivity.
  - discriminate.
  - reflexivity.
Defined.

(** ** The handler: Provision, Validate, Cleanup *)

(** [Provision] is [newOpenTelemetryWrapper] on the fields of the handler,
    with one line logged on an error. *)
Lemma Provision_paths (env : collaborators) (ot : OpenTelemetry)
    (t : tracerProviderCache) :
  Provision env ot t
  = let r := newOpenTelemetryWrapper env (ServiceName ot) (Propagators ot)
               (TracerName ot) (SpanName ot) (handlerConfig ot) t in
    (withOtel (fst (fst r)) ot, snd (fst r),
     match snd (fst r) with
     | Some _ =>
         {| tracerProviders := tracerProviders (snd r);
            tracerProvidersCounter := tracerProvidersCounter (snd r);
            allocated := allocated (snd r);
            calls := calls (snd r)
                     ++ [CallLoggerError "OpenTelemetry Provision error"] |}
     | None => snd r
     end).
Proof.
  unfold Provision, handlerConfig, withOtel.
  change (strings.ToLower "true") with "true".
  destruct (newOpenTelemetryWrapper _ _ _ _ _ _ _) as [[w [err|]] t']; done.
Qed.

Lemma setup_tracer_iff_no_error (env : collaborators)
    (serviceName propagators' tracerName spanName : string)
    (cfg : tracerExporterConfig) (t : tracerProviderCache) :
  tracer (fst (fst (newOpenTelemetryWrapper env serviceName propagators'
                      tracerName spanName cfg t))) = None
  ↔ snd (fst (newOpenTelemetryWrapper env serviceName propagators'
                tracerName spanName cfg t)) ≠ None.
Proof.
  rewrite newOpenTelemetryWrapper_paths. cbv zeta.
  destruct (newResource _ _ _ _); [|done].
  destruct (decide (exporterTracesProtocol (resolvedConfig env cfg) = ""));
    [done|].
  destruct (getTracerExporter _ _); [|done].
  destruct (decide (resolvedPropagators env propagators' = "")); [done|].
  cbn [fst snd tracer]. split; [done|]. by intros H.
Qed.

Lemma failed_setup_key_empty (env : collaborators)
    (serviceName propagators' tracerName spanName : string)
    (cfg : tracerExporterConfig) (t : tracerProviderCache) :
  snd (fst (newOpenTelemetryWrapper env serviceName propagators'
              tracerName spanName cfg t)) ≠ None →
  tracerProviderKey (fst (fst (newOpenTelemetryWrapper env serviceName
                                 propagators' tracerName spanName cfg t))) = "".
Proof.
  rewrite newOpenTelemetryWrapper_paths. cbv zeta.
  destruct (newResource _ _ _ _); [|done].
  destruct (decide (exporterTracesProtocol (resolvedConfig env cfg) = ""));
    [done|].
  destruct (getTracerExporter _ _); [|done].
  by destruct (decide (resolvedPropagators env propagators' = "")).
Qed.

(** X17. [Validate] accepts the handler [Provision] leaves exactly when
    [Provision] returned no error, whatever the handler held before. *)
Theorem Validate_accepts_iff_Provision_succeeded (env : collaborators)
    (ot : OpenTelemetry) (t : tracerProviderCache) :
  Validate (fst (fst (Provision env ot t))) = None
  ↔ snd (fst (Provision env ot t)) = None.
Proof.
  rewrite Provision_paths. cbv zeta. cbn [fst snd]. unfold Validate.
  cbn [otel withOtel].
  pose proof (setup_tracer_iff_no_error env (ServiceName ot) (Propagators ot)
                (TracerName ot) (SpanName ot) (handlerConfig ot) t) as H.
  destruct (tracer _) eqn:Ht.
  - split; [|done]. intros _.
    destruct (snd (fst (newOpenTelemetryWrapper _ _ _ _ _ _ _))); [|done].
    destruct H as [_ H]. by specialize (H ltac:(done)).
  - split; [done|]. intros Herr. destruct H as [H _].
    by specialize (H eq_refl).
Qed.

(** X18. [exporter_insecure] switches transport security off for the value
    [true] in lower case and for nothing else: two handlers that differ only
    in this field, neither [true], are provisioned alike. *)
Theorem only_true_means_insecure (env : collaborators) (ot : OpenTelemetry)
    (v1 v2 : string) (t : tracerProviderCache) :
  v1 ≠ "true" → v2 ≠ "true" →
  let p1 := Provision env (withExporterInsecure v1 ot) t in
  let p2 := Provision env (withExporterInsecure v2 ot) t in
  otel (fst (fst p1)) = otel (fst (fst p2))
  ∧ snd (fst p1) = snd (fst p2)
  ∧ snd p1 = snd p2.
Proof.
  intros H1 H2 p1 p2. subst p1 p2. rewrite !Provision_paths. cbv zeta.
  assert (Hcfg : handlerConfig (withExporterInsecure v1 ot)
                 = handlerConfig (withExporterInsecure v2 ot)).
  { unfold handlerConfig, withExporterInsecure. simpl.
    by rewrite !bool_decide_eq_false_2. }
  rewrite Hcfg. done.
Qed.

Lemma only_true_means_insecure_witness :
  snd (Provision plainProcess
         (withExporterInsecure "TRUE"
            (newHandler "my-tracer" "" "" "baggage" "" "grpc" "" "")) emptyCache)
  = snd (Provision plainProcess
           (withExporterInsecure "false"
              (newHandler "my-tracer" "" "" "baggage" "" "grpc" "" ""))
           emptyCache).
Proof.
  apply (only_true_means_insecure plainProcess
           (newHandler "my-tracer" "" "" "baggage" "" "grpc" "" "")
           "TRUE" "false" emptyCache); discriminate.
Defined.

Lemma tracerProviderKeyOf_not_empty (serviceName tracerName : string)
    (cfg : tracerExporterConfig) :
  tracerProviderKeyOf serviceName tracerName cfg ≠ "".
Proof.
  unfold tracerProviderKeyOf. destruct serviceName; [|done].
  simpl. discriminate.
Qed.

Lemma cleanupTracerProvider_keeps_absent key sdk (t : tracerProviderCache) k :
  Spec.absent k t → Spec.absent k (snd (cleanupTracerProvider key sdk t)).
Proof.
  intros Habs. destruct (decide (key = k)) as [->|Hne].
  - by rewrite cleanupTracerProvider_absent.
  - destruct Habs as [Hp Hc].
    assert (H : tracerProviders (step t (Release key sdk)) !! k
                = tracerProviders t !! k
                ∧ tracerProvidersCounter (step t (Release key sdk)) !! k
                  = tracerProvidersCounter t !! k).
    { simpl. unfold cleanupTracerProvider.
      destruct (0 <? counterAt (tracerProvidersCounter t) key);
        (destruct (counterAt _ key =? 0);
         [destruct (tracerProviders t !! key); [destruct (shutdownErr sdk)|]|]);
        simpl; by rewrite ?lookup_delete_ne, ?lookup_insert_ne by done. }
    destruct H as [H1 H2]. split; simpl in *; congruence.
Qed.

(** X19. The empty string is never a key of the cache the handlers share:
    when it is in neither map it stays so through every [Provision] and
    every [Cleanup]; and the [Cleanup] of a handler whose [Provision] failed
    returns nil and changes nothing at all. *)
Theorem cleanup_after_failed_Provision_is_noop (env : collaborators)
    (ot : OpenTelemetry) (sdk : teardown) (t : tracerProviderCache) :
  Spec.absent "" t →
  let p := Provision env ot t in
  Spec.absent "" (snd p)
  ∧ Spec.absent "" (snd (Cleanup ot sdk t))
  ∧ (snd (fst p) ≠ None → Cleanup (fst (fst p)) sdk (snd p) = (None, snd p)).
Proof.
  intros Habs p. subst p.
  assert (Hp : Spec.absent "" (snd (Provision env ot t))).
  { rewrite Provision_paths. cbv zeta. cbn [snd].
    assert (Hs : Spec.absent ""
              (snd (newOpenTelemetryWrapper env (ServiceName ot) (Propagators ot)
                      (TracerName ot) (SpanName ot) (handlerConfig ot) t))).
    { rewrite newOpenTelemetryWrapper_paths. cbv zeta.
      destruct (newResource _ _ _ _) as [res|]; [|done].
      destruct (decide (exporterTracesProtocol
                          (resolvedConfig env (handlerConfig ot)) = ""));
        [done|].
      destruct (getTracerExporter _ _) as [e|]; [|done].
      destruct (decide (resolvedPropagators env (Propagators ot) = ""));
        [done|].
      cbn [snd]. destruct Habs as [H1 H2].
      destruct (getTracerProvider_frame
                  (tracerProviderKeyOf (resolvedServiceName (ServiceName ot))
                     (TracerName ot) (resolvedConfig env (handlerConfig ot)))
                  [WithBatcher e; WithResource res] t "") as [F1 F2].
      { intros H. symmetry in H. by apply tracerProviderKeyOf_not_empty in H. }
      split; congruence. }
    by destruct (snd (fst _)). }
  split; [exact Hp|]. split.
  - unfold Cleanup, cleanup.
    pose proof (cleanupTracerProvider_keeps_absent
                  (tracerProviderKey (otel ot)) sdk t "" Habs) as H.
    by destruct (cleanupTracerProvider _ _ _) as [[e|] t'].
  - intros Herr.
    assert (Hkey : tracerProviderKey (otel (fst (fst (Provision env ot t)))) = "").
    { rewrite Provision_paths in *. cbv zeta in *. cbn [fst snd otel withOtel] in *.
      by apply failed_setup_key_empty. }
    unfold Cleanup, cleanup. rewrite Hkey.
    by rewrite cleanupTracerProvider_absent.
Qed.

Lemma cleanup_after_failed_Provision_is_noop_witness :
  let p := Provision plainProcess
             (newHandler "my-tracer" "" "" "baggage" "" "http/1.1" "" "")
             emptyCache in
  Cleanup (fst (fst p)) bothFail (snd p) = (None, snd p).
Proof.
  cbv zeta.
  destruct (cleanup_after_failed_Provision_is_noop plainProcess
              (newHandler "my-tracer" "" "" "baggage" "" "http/1.1" "" "")
              bothFail emptyCache) as (_ & _ & H).
  - split; reflexivity.
  - apply H. vm_compute. discriminate.
Defined.

Lemma getTracerProvider_then_cleanupTracerProvider key opts sdk
    (t : tracerProviderCache) :
  (Spec.absent key t ∧ shutdownErr sdk = None)
  ∨ (∃ tp c, tracerProviders t !! key = Some tp
       ∧ tracerProvidersCounter t !! key = Some c ∧ 1 ≤ c < 2 ^ 63 - 1) →
  ∃ t', cleanupTracerProvider key sdk (snd (getTracerProvider key opts t))
        = (None, t')
        ∧ tracerProviders t' = tracerProviders t
        ∧ tracerProvidersCounter t' = tracerProvidersCounter t.
Proof.
  intros [[Habs Hsd]|(tp & c & Hp & Hc & Hr)].
  - rewrite (getTracerProvider_absent _ _ _ Habs). cbn [snd].
    erewrite cleanupTracerProvider_last;
      [|cbn [tracerProviders]; apply lookup_insert_eq
       |cbn [tracerProvidersCounter]; apply lookup_insert_eq|done].
    destruct Habs as [Hp Hc]. eexists. split; [done|].
    cbn [tracerProviders tracerProvidersCounter].
    by rewrite !delete_insert_id.
  - rewrite (getTracerProvider_present _ _ _ _ _ Hp Hc) by lia. cbn [snd].
    erewrite (cleanupTracerProvider_not_last _ _ _ (c + 1));
      [|cbn [tracerProvidersCounter]; apply lookup_insert_eq|lia].
    eexists. split; [done|]. cbn [tracerProviders tracerProvidersCounter].
    rewrite insert_insert_eq. replace (c + 1 - 1) with c by lia.
    by rewrite insert_id.
Qed.

(** X20. A [Provision] that succeeds followed by the [Cleanup] of the
    handler puts both maps of the cache back as they were, and [Cleanup]
    returns nil: when the key of the handler was in neither map and the
    [Shutdown] succeeds, and when the key was held by others (counter from 1
    to 2^63 - 2) whatever the SDK would return. *)
Theorem Provision_then_Cleanup_restores_maps (env : collaborators)
    (ot : OpenTelemetry) (sdk : teardown) (t : tracerProviderCache) :
  let p := Provision env ot t in
  let key := tracerProviderKey (otel (fst (fst p))) in
  snd (fst p) = None →
  (Spec.absent key t ∧ shutdownErr sdk = None)
  ∨ (∃ tp c, tracerProviders t !! key = Some tp
       ∧ tracerProvidersCounter t !! key = Some c ∧ 1 ≤ c < 2 ^ 63 - 1) →
  fst (Cleanup (fst (fst p)) sdk (snd p)) = None
  ∧ tracerProviders (snd (Cleanup (fst (fst p)) sdk (snd p)))
    = tracerProviders t
  ∧ tracerProvidersCounter (snd (Cleanup (fst (fst p)) sdk (snd p)))
    = tracerProvidersCounter t.
Proof.
  intros p key. subst p key. rewrite Provision_paths. cbv zeta.
  cbn [fst snd otel withOtel]. rewrite newOpenTelemetryWrapper_paths. cbv zeta.
  destruct (newResource _ _ _ _) as [res|]; [|done].
  destruct (decide (exporterTracesProtocol
                      (resolvedConfig env (handlerConfig ot)) = ""));
    [done|].
  destruct (getTracerExporter _ _) as [e|]; [|done].
  destruct (decide (resolvedPropagators env (Propagators ot) = "")); [done|].
  cbn [fst snd tracerProviderKey]. intros _ Hstate.
  unfold Cleanup, cleanup. cbn [otel withOtel tracerProviderKey].
  destruct (getTracerProvider_then_cleanupTracerProvider _
              [WithBatcher e; WithResource res] sdk t Hstate)
    as (t' & -> & Hp & Hc).
  done.
Qed.

Lemma Provision_then_Cleanup_restores_maps_witness :
  let p := Provision plainProcess
             (newHandler "my-tracer" "" "" "baggage" "" "grpc" "true" "")
             emptyCache in
  tracerProviders (snd (Cleanup (fst (fst p)) flushFails (snd p)))
  = tracerProviders emptyCache.
Proof.
  cbv zeta.
  apply (Provision_then_Cleanup_restores_maps plainProcess
           (newHandler "my-tracer" "" "" "baggage" "" "grpc" "true" "")
           flushFails emptyCache).
  - vm_compute. reflexivity.
  - left. split; [split; vm_compute; reflexivity|reflexivity].
Defined.

(** ** The key, for fields without hyphens *)

(** X21. For service names, tracer names, protocols and certificate paths
    that contain no hyphen, two configurations have the same key exactly
    when they agree in all six fields. *)
Theorem key_separates_hyphen_free_fields (s1 n1 s2 n2 : string)
    (c1 c2 : tracerExporterConfig) :
  hyphenFree s1 = true → hyphenFree n1 = true →
  hyphenFree (exporterTracesProtocol c1) = true →
  hyphenFree (exporterCertificate c1) = true →
  hyphenFree s2 = true → hyphenFree n2 = true →
  hyphenFree (exporterTracesProtocol c2) = true →
  hyphenFree (exporterCertificate c2) = true →
  tracerProviderKeyOf s1 n1 c1 = tracerProviderKeyOf s2 n2 c2
  ↔ s1 = s2 ∧ n1 = n2
    ∧ exporterTracesProtocol c1 = exporterTracesProtocol c2
    ∧ insecure c1 = insecure c2
    ∧ exporterCertificate c1 = exporterCertificate c2
    ∧ exporterTracesEndpoint c1 = exporterTracesEndpoint c2.
Proof.
  intros Hs1 Hn1 Hp1 Hc1 Hs2 Hn2 Hp2 Hc2. split.
  - unfold tracerProviderKeyOf. intros H.
    apply hyphen_delimits in H as [-> H]; [|done..].
    apply hyphen_delimits in H as [-> H]; [|done..].
    apply hyphen_delimits in H as [Hp H]; [|done..].
    apply hyphen_delimits in H as [Hi%formatBool_inj H];
      [|apply formatBool_hyphenFree..].
    apply hyphen_delimits in H as [Hc He]; [|done..].
    done.
  - intros (-> & -> & Hp & Hi & Hc & He). unfold tracerProviderKeyOf.
    by rewrite Hp, Hi, Hc, He.
Qed.

Lemma key_separates_hyphen_free_fields_witness :
  tracerProviderKeyOf "svc" "tracer" grpcInsecure
  ≠ tracerProviderKeyOf "svc" "other" grpcInsecure.
Proof.
  intros H.
  apply (key_separates_hyphen_free_fields "svc" "tracer" "svc" "other"
           grpcInsecure grpcInsecure) in H; try reflexivity.
  destruct H as (_ & H & _). discriminate H.
Defined.

(** ** The composite of the propagators *)

Lemma getPropagators_members (names : string) :
  members (getPropagators names)
  = omap Spec.codec
      (Spec.keepFirst (strings.TrimSpace <$> strings.Split names ",")).
Proof.
  unfold getPropagators.
  pose proof (getPropagators_loop (strings.Split names ",") ∅ []) as H.
  destruct (fold_left _ _ _) as [seen l].
  rewrite app_nil_l, filter_all in H by set_solver. by rewrite <- H.
Qed.

Lemma elem_of_keepFirst (l : list string) (x : string) :
  x ∈ Spec.keepFirst l ↔ x ∈ l.
Proof.
  induction l as [|y l IH]; [done|]. simpl.
  rewrite !elem_of_cons, list_elem_of_filter, IH.
  destruct (decide (x = y)); intuition.
Qed.

Lemma NoDup_keepFirst (l : list string) : NoDup (Spec.keepFirst l).
Proof.
  induction l as [|y l IH]; simpl; [constructor|].
  constructor.
  - rewrite list_elem_of_filter. by intros [? _].
  - by apply NoDup_filter.
Qed.

Lemma codec_inj (n1 n2 : string) (p : TextMapPropagator) :
  Spec.codec n1 = Some p → Spec.codec n2 = Some p → n1 = n2.
Proof.
  unfold Spec.codec. repeat case_decide; intros; simplify_eq; congruence.
Qed.

Lemma elem_of_omap_codec (l : list string) (p : TextMapPropagator) :
  p ∈ omap Spec.codec l ↔ ∃ n, n ∈ l ∧ Spec.codec n = Some p.
Proof. apply list_elem_of_omap. Qed.

Lemma NoDup_omap_codec (l : list string) : NoDup l → NoDup (omap Spec.codec l).
Proof.
  induction 1 as [|n l Hn Hl IH]; simpl; [constructor|].
  destruct (Spec.codec n) as [p|] eqn:Hp; [|done].
  constructor; [|done].
  intros (n' & Hn' & Hp')%elem_of_omap_codec.
  by rewrite (codec_inj _ _ _ Hp Hp') in Hn.
Qed.

Lemma NoDup_TextMapPropagator_length (l : list TextMapPropagator) :
  NoDup l → (length l ≤ 2)%nat.
Proof.
  intros Hl. destruct l as [|a [|b [|c l]]]; simpl; try lia.
  exfalso. apply NoDup_cons in Hl as [Ha Hl].
  apply NoDup_cons in Hl as [Hb _].
  apply not_elem_of_cons in Ha as [Hab Ha].
  apply not_elem_of_cons in Ha as [Hac _].
  apply not_elem_of_cons in Hb as [Hbc _].
  destruct a, b, c; congruence.
Qed.

(** X22. The composite of [getPropagators] has each propagator at most
    once, hence at most two members, and it has a propagator exactly when
    one of the pieces between the commas, trimmed, is its name. *)
Theorem getPropagators_members_are_the_named_ones (names : string) :
  NoDup (members (getPropagators names))
  ∧ (length (members (getPropagators names)) ≤ 2)%nat
  ∧ (Baggage ∈ members (getPropagators names)
     ↔ ∃ piece, piece ∈ strings.Split names ","
         ∧ strings.TrimSpace piece = "baggage")
  ∧ (TraceContext ∈ members (getPropagators names)
     ↔ ∃ piece, piece ∈ strings.Split names ","
         ∧ strings.TrimSpace piece = "tracecontext").
Proof.
  rewrite getPropagators_members.
  assert (Hnd : NoDup (omap Spec.codec
                         (Spec.keepFirst
                            (strings.TrimSpace <$> strings.Split names ","))))
    by apply NoDup_omap_codec, NoDup_keepFirst.
  assert (Hin : ∀ p name, Spec.codec name = Some p →
            (∀ n, Spec.codec n = Some p → n = name) →
            p ∈ omap Spec.codec
                  (Spec.keepFirst (strings.TrimSpace <$> strings.Split names ","))
            ↔ ∃ piece, piece ∈ strings.Split names ","
                ∧ strings.TrimSpace piece = name).
  { intros p name Hname Honly. rewrite elem_of_omap_codec. split.
    - intros (n & Hn & Hp). apply elem_of_keepFirst, list_elem_of_fmap in Hn
        as (piece & -> & Hpiece).
      exists piece. split; [done|]. by apply Honly.
    - intros (piece & Hpiece & Htrim). exists name. split; [|done].
      apply elem_of_keepFirst, list_elem_of_fmap. by exists piece. }
  split; [done|]. split; [by apply NoDup_TextMapPropagator_length|]. split.
  - apply Hin; [done|]. intros n. unfold Spec.codec.
    repeat case_decide; by intros.
  - apply Hin; [done|]. intros n. unfold Spec.codec.
    repeat case_decide; by intros.
Qed.

Lemma Split_nonempty (s : string) (sep : ascii) : strings.Split s sep ≠ [].
Proof.
  destruct s as [|c s]; simpl; [done|].
  destruct (Ascii.eqb c sep); [done|]. by destruct (strings.Split s sep).
Qed.

Lemma Split_append (a b : string) (sep : ascii) :
  strings.Split (a +:+ String sep b) sep
  = strings.Split a sep ++ strings.Split b sep.
Proof.
  induction a as [|c a IH]; simpl.
  - by rewrite Ascii.eqb_refl.
  - destruct (Ascii.eqb c sep); [by rewrite IH|].
    rewrite IH. pose proof (Split_nonempty a sep).
    by destruct (strings.Split a sep).
Qed.

Lemma keepFirst_app (l1 l2 : list string) :
  Spec.keepFirst (l1 ++ l2)
  = Spec.keepFirst l1 ++ filter (λ n, n ∉ l1) (Spec.keepFirst l2).
Proof.
  induction l1 as [|x l1 IH]; simpl.
  - rewrite filter_all; [done|]. intros n. apply not_elem_of_nil.
  - rewrite IH, filter_app, list_filter_filter. do 2 f_equal.
    apply list_filter_iff. intros n. rewrite not_elem_of_cons. tauto.
Qed.

Lemma omap_codec_cons (n : string) (l : list string) :
  omap Spec.codec (n :: l)
  = match Spec.codec n with
    | Some p => p :: omap Spec.codec l
    | None => omap Spec.codec l
    end.
Proof. reflexivity. Qed.

Lemma omap_codec_filter (seen l : list string) :
  omap Spec.codec (filter (λ n, n ∉ seen) l)
  = filter (λ p, p ∉ omap Spec.codec (Spec.keepFirst seen))
      (omap Spec.codec l).
Proof.
  induction l as [|n l IH]; [done|].
  rewrite (omap_codec_cons n l).
  destruct (decide (n ∈ seen)) as [Hn|Hn].
  - rewrite filter_cons_False by (intros H; apply H; exact Hn).
    rewrite IH. destruct (Spec.codec n) as [p|] eqn:Hp; [|done].
    rewrite filter_cons_False; [done|].
    intros H. apply H, elem_of_omap_codec. exists n.
    by rewrite elem_of_keepFirst.
  - rewrite filter_cons_True by done. rewrite omap_codec_cons, IH.
    destruct (Spec.codec n) as [p|] eqn:Hp; [|done].
    rewrite filter_cons_True; [done|].
    intros (n' & Hn' & Hp')%elem_of_omap_codec.
    rewrite elem_of_keepFirst in Hn'.
    by rewrite (codec_inj _ _ _ Hp Hp') in Hn.
Qed.

(** X23. Joining two propagator strings with a comma gives the members of
    the first followed by those members of the second that the first does
    not have; so a string joined with itself gives the composite of the
    string. *)
Theorem getPropagators_of_joined_strings (a b : string) :
  members (getPropagators (a +:+ "," +:+ b))
  = members (getPropagators a)
    ++ filter (λ p, p ∉ members (getPropagators a)) (members (getPropagators b))
  ∧ getPropagators (a +:+ "," +:+ a) = getPropagators a.
Proof.
  assert (Hjoin : ∀ a b,
            members (getPropagators (a +:+ "," +:+ b))
            = members (getPropagators a)
              ++ filter (λ p, p ∉ members (getPropagators a))
                   (members (getPropagators b))).
  { clear. intros a b. rewrite !getPropagators_members.
    change ("," +:+ b) with (String "," b).
    rewrite Split_append, fmap_app, keepFirst_app, omap_app. f_equal.
    apply omap_codec_filter. }
  split; [apply Hjoin|].
  assert (Hm : members (getPropagators (a +:+ "," +:+ a))
               = members (getPropagators a)).
  { rewrite Hjoin.
    assert (Hnil : ∀ l l' : list TextMapPropagator,
              (∀ x, x ∈ l' → x ∈ l) → filter (λ p, p ∉ l) l' = []).
    { clear. intros l l'. induction l' as [|x l' IH]; intros Hsub; [done|].
      rewrite filter_cons_False.
      - apply IH. intros y Hy. apply Hsub. by right.
      - intros H. apply H, Hsub. by left. }
    by rewrite Hnil, app_nil_r. }
  destruct (getPropagators (a +:+ "," +:+ a)), (getPropagators a).
  simpl in Hm. by rewrite Hm.
Qed.

(** ** After a failed shutdown *)

(** X24. When the [Shutdown] of the last release fails, the provider stays
    in the cache: the next [getTracerProvider] of the key returns that same
    provider, on which [Shutdown] has been called, creates no new one, and
    the counter of the key is 1 again. *)
Theorem provider_is_reused_after_failed_shutdown key opts sdk
    (t : tracerProviderCache) tp err :
  tracerProviders t !! key = Some tp →
  tracerProvidersCounter t !! key = Some 1 →
  shutdownErr sdk = Some err →
  let released := snd (cleanupTracerProvider key sdk t) in
  let again := getTracerProvider key opts released in
  fst again = tp
  ∧ CallShutdown tp ∈ calls released
  ∧ calls (snd again) = calls released
  ∧ allocated (snd again) = allocated t
  ∧ tracerProvidersCounter (snd again) !! key = Some 1.
Proof.
  intros Hp Hc Hsd released again. subst again released.
  assert (Hrel : snd (cleanupTracerProvider key sdk t)
                 = {| tracerProviders := tracerProviders t;
                      tracerProvidersCounter :=
                        <[key := 0]> (tracerProvidersCounter t);
                      allocated := allocated t;
                      calls := calls t ++ teardownCalls tp sdk |}).
  { unfold cleanupTracerProvider, teardownCalls.
    rewrite (counterAt_Some _ _ _ Hc), Hp, Hsd. simpl.
    by rewrite counterAt_insert, decide_True. }
  rewrite Hrel.
  rewrite (getTracerProvider_present key opts _ tp 0);
    cbn [tracerProviders tracerProvidersCounter];
    [|done|by rewrite lookup_insert_eq|lia].
  cbn [fst snd calls allocated tracerProvidersCounter].
  split; [done|]. split; [|split; [done|split; [done|]]].
  - unfold teardownCalls. rewrite !elem_of_app. right. right. right.
    apply list_elem_of_here.
  - by rewrite insert_insert_eq, lookup_insert_eq.
Qed.

Lemma provider_is_reused_after_failed_shutdown_witness :
  fst (getTracerProvider "a" []
         (snd (cleanupTracerProvider "a" shutdownFails
                 (snd (getTracerProvider "a" [] emptyCache)))))
  = {| tp_addr := 0; tp_opts := [] |}.
Proof.
  apply (provider_is_reused_after_failed_shutdown "a" [] shutdownFails
           (snd (getTracerProvider "a" [] emptyCache))
           {| tp_addr := 0; tp_opts := [] |}
           (ErrCollaborator "context deadline exceeded"));
    vm_compute; reflexivity.
Defined.
